(** * wandb.sdk.launch: the run dispatcher and its entry points

    A shallow embedding of [wandb/sdk/launch/__init__.py]:
    [push_to_queue], [run_agent], [_run], [run] and [_wait_for].

    The module is glue code: it mutates the dictionaries its caller hands in
    and calls into collaborators that live in other modules (the resolver
    [fetch_and_validate_project], the settings provider [api.settings], the
    registry [loader.load_backend], the backends, the submitted runs, the
    queue client and [LaunchAgent]).  The dictionaries are modelled as a heap
    of mappings addressed by reference, so that aliasing is visible; the
    collaborators are modelled as one response function over a private
    external state, so that every theorem holds for every behaviour they may
    have.  Each function returns, besides its result (a value or a raised
    exception), the heap, the external state and the chronological list of
    observable events it produced.

    What the model takes for granted:
    - a collaborator reads the caller's dictionaries but does not write
      them; whatever it changes is in its own state;
    - [print], [wandb.termerror] and the logger write a line and return;
    - the objects of the collaborators are true in a boolean context and
      support no item assignment;
    - the environment of a project, [project.docker_env], is held by the
      project: it is written through the project, and is none of the
      dictionaries of the heap;
    - the message of a [TypeError] or an [AttributeError] names the type of
      a builtin value as Python does; the class of a collaborator's object
      is not known, and the message says "object" for it;
    - runner names are strings, and the agent specifier is a list of
      strings or [None];
    - a reference to a dictionary the heap does not hold denotes the empty
      dictionary. *)

From stdpp Require Import gmap strings list fin_maps.

From Stdlib Require Import ZArith String Ascii.

Local Open Scope string_scope.

(** ** Python values *)

Definition loc := nat.

Definition obj := nat.

(** The values the module handles: [None], booleans, integers, strings,
    references to dictionaries (held on the heap) and references to opaque
    objects of the collaborators (projects, backends, submitted runs, api
    clients, agents). *)
Inductive value : Type :=
| VNone
| VBool (b : bool)
| VInt (z : Z)
| VStr (s : string)
| VDict (l : loc)
| VObj (o : obj).

#[global] Instance value_eq_dec : EqDecision value.
Proof. solve_decision. Defined.

(** A dictionary with string keys, and the store of all dictionaries. *)
Abbreviation dict := (gmap string value).

Abbreviation heap := (gmap loc (gmap string value)).

(** [type(v).__name__], as it appears in the interpreter's error messages.
    The class of a collaborator's object is not known here: "object" stands
    for it. *)
Definition type_name (v : value) : string :=
  match v with
  | VNone => "NoneType"
  | VBool _ => "bool"
  | VInt _ => "int"
  | VStr _ => "str"
  | VDict _ => "dict"
  | VObj _ => "object"
  end.

(** Truth value testing: [None], [False], [0], the empty string and the empty
    dictionary are false; objects are true. *)
Definition truthy (h : heap) (v : value) : bool :=
  match v with
  | VNone => false
  | VBool b => b
  | VInt z => negb (Z.eqb z 0)
  | VStr s => negb (String.eqb s "")
  | VDict l => negb (bool_decide (h !!! l = (∅ : gmap string value)))
  | VObj _ => true
  end.

Definition is_None (v : value) : bool :=
  match v with VNone => true | _ => false end.

(** ** Exceptions *)

(** [KeyboardInterrupt] and [SystemExit] derive from [BaseException] only;
    all the others derive from [Exception].  [OtherException] stands for any
    other subclass of [Exception] a collaborator may raise. *)
Inductive exn : Type :=
| KeyboardInterrupt (args : string)
| SystemExit (code : Z)
| ExecutionException (msg : string)
| TypeError (msg : string)
| AttributeError (msg : string)
| ValueError (msg : string)
| OtherException (cls msg : string).

#[global] Instance exn_eq_dec : EqDecision exn.
Proof. solve_decision. Defined.

(** [isinstance(e, Exception)] *)
Definition is_Exception (e : exn) : bool :=
  match e with
  | KeyboardInterrupt _ | SystemExit _ => false
  | _ => true
  end.

(** [isinstance(e, KeyboardInterrupt)] *)
Definition is_KeyboardInterrupt (e : exn) : bool :=
  match e with
  | KeyboardInterrupt _ => true
  | _ => false
  end.

Inductive result (A : Type) : Type :=
| Ret (a : A)
| Raise (e : exn).

Arguments Ret {A} a.

Arguments Raise {A} e.

(** ** Calls into collaborators, and observable events *)

Inductive call : Type :=
| CIsWandbLocalUri (uri : value)
| CFetchAndValidateProject
    (uri experiment_name api : value) (runner_name : string)
    (version entry_point parameters : value)
| CApiSettings (api : obj) (key : string)
| CSetDockerEnv (project : obj) (key : string) (v : value)
| CLoadBackend (runner_name : string) (api : value)
| CBackendRun (backend : obj) (project runner_config : value)
| CWait (submitted_run : obj)
| CCancel (submitted_run : obj)
| CPushToRunQueue (api : obj) (queue run_spec : value)
| CLaunchAgent (entity project : string) (queues : value)
| CAgentLoop (agent : obj).

(** An event is a completed call to a collaborator, together with the heap
    the collaborator saw and the way the call ended, or a line of output. *)
Inductive event : Type :=
| EvCall (c : call) (h : heap) (r : result value)
| EvPrint (label : string) (e : exn)
| EvTermError (msg : string)
| EvLogInfo (msg : string)
| EvLogError (msg : string).

(** ** The world around the module

    [respond] is the behaviour of every collaborator: it reads the caller's
    dictionaries, updates its own state and returns or raises.
    [WANDB_RUNNERS] lists the keys of [loader.WANDB_RUNNERS] in dictionary
    order.  The three [PROJECT_*] names are the string constants imported
    from [.utils]. *)
Record World : Type := {
  ext : Type;
  respond : call -> heap -> ext -> result value * ext;
  WANDB_RUNNERS : ext -> list string;
  PROJECT_SYNCHRONOUS : string;
  PROJECT_DOCKER_ARGS : string;
  PROJECT_STORAGE_DIR : string
}.

Record outcome (X : Type) (A : Type) : Type := Outcome {
  out_result : result A;
  out_heap : heap;
  out_ext : X;
  out_events : list event
}.

Arguments Outcome {X A} _ _ _ _.

Arguments out_result {X A} _.

Arguments out_heap {X A} _.

Arguments out_ext {X A} _.

Arguments out_events {X A} _.

(** The outcome [o], with the events [evs] that came before it. *)
Definition prepend {X A} (evs : list event) (o : outcome X A) : outcome X A :=
  Outcome (out_result o) (out_heap o) (out_ext o) (evs ++ out_events o).

Arguments prepend {X A} evs !o /.

(** ** The monad of the module's code: state, exceptions and a log *)

Definition M (W : World) (A : Type) : Type := heap -> ext W -> outcome (ext W) A.

Section Monad.
Context {W : World}.

Definition ret {A} (a : A) : M W A :=
  fun h x => Outcome (Ret a) h x [].

Definition raise {A} (e : exn) : M W A :=
  fun h x => Outcome (Raise e) h x [].

Definition bind {A B} (m : M W A) (k : A -> M W B) : M W B :=
  fun h x =>
    let o := m h x in
    match out_result o with
    | Ret a => prepend (out_events o) (k a (out_heap o) (out_ext o))
    | Raise e => Outcome (Raise e) (out_heap o) (out_ext o) (out_events o)
    end.

(** [try: m except <class>: handler], where [handles] tells the instances
    of [<class>].  An exception the clause does not handle propagates. *)
Definition try_except {A} (m : M W A) (handles : exn -> bool)
    (handler : exn -> M W A) : M W A :=
  fun h x =>
    let o := m h x in
    match out_result o with
    | Ret a => o
    | Raise e =>
        if handles e
        then prepend (out_events o) (handler e (out_heap o) (out_ext o))
        else o
    end.

Definition emit (ev : event) : M W unit :=
  fun h x => Outcome (Ret tt) h x [ev].

(** A call to a collaborator: its response, logged with the heap it saw. *)
Definition call_ext (c : call) : M W value :=
  fun h x =>
    let (r, x') := respond W c h x in
    Outcome r h x' [EvCall c h r].

(** [recv.attr(...)]: only objects of the collaborators have the methods
    the module calls; on anything else the attribute lookup fails. *)
Definition call_method (recv : value) (attr : string) (c : obj -> call)
    : M W value :=
  match recv with
  | VObj o => call_ext (c o)
  | _ => raise (AttributeError
           ("'" +:+ type_name recv +:+ "' object has no attribute '"
                +:+ attr +:+ "'"))
  end.

(** [target[key] = v]: an update in place of the dictionary [target]
    refers to; anything else does not support item assignment. *)
Definition setitem (target : value) (key : string) (v : value) : M W unit :=
  match target with
  | VDict l =>
      fun h x => Outcome (Ret tt) (<[l := <[key := v]> (h !!! l)]> h) x []
  | _ => raise (TypeError
           ("'" +:+ type_name target
                +:+ "' object does not support item assignment"))
  end.

(** The truth value of [v] in the current heap. *)
Definition test (v : value) : M W bool :=
  fun h x => Outcome (Ret (truthy h v)) h x [].

(** [loader.WANDB_RUNNERS.keys()] *)
Definition runner_names : M W (list string) :=
  fun h x => Outcome (Ret (WANDB_RUNNERS W x)) h x [].

End Monad.

Notation "x <- m ;; k" := (bind m (fun x => k))
  (at level 100, m at next level, right associativity).

Notation "m ;;; k" := (bind m (fun _ => k))
  (at level 100, right associativity).

(** ** Strings: [str.split] and [str.join] *)

(** [s.split(sep)] for a one-character separator: the pieces between the
    occurrences of [sep], empty pieces included. *)
Fixpoint split (sep : ascii) (s : string) : list string :=
  match s with
  | EmptyString => [EmptyString]
  | String c rest =>
      if Ascii.eqb c sep then EmptyString :: split sep rest
      else match split sep rest with
           | [] => [String c EmptyString]
           | piece :: pieces => String c piece :: pieces
           end
  end.

(** [s.count(sep)] *)
Fixpoint count (sep : ascii) (s : string) : nat :=
  match s with
  | EmptyString => 0
  | String c rest => (if Ascii.eqb c sep then 1 else 0) + count sep rest
  end.

(** [sep.join(pieces)] *)
Definition join (sep : string) (pieces : list string) : string :=
  String.concat sep pieces.

Definition slash : ascii := "/"%char.

(** ** The module *)

Section Launch.
Context {W : World}.

(** [_is_wandb_local_uri(uri)], imported from [.utils]. *)
Definition _is_wandb_local_uri (uri : value) : M W value :=
  call_ext (CIsWandbLocalUri uri).

(** [fetch_and_validate_project(...)], imported from [.utils]. *)
Definition fetch_and_validate_project
    (uri experiment_name api : value) (runner_name : string)
    (version entry_point parameters : value) : M W value :=
  call_ext (CFetchAndValidateProject uri experiment_name api runner_name
              version entry_point parameters).

(** [project.docker_env[key] = v]: an assignment into the environment the
    project holds, made through the project; the environment is not one of
    the dictionaries of the heap. *)
Definition set_docker_env (project : value) (key : string) (v : value)
    : M W value :=
  call_method project "docker_env" (fun p => CSetDockerEnv p key v).

(** [def push_to_queue(api, queue, run_spec)] *)
Definition push_to_queue (api queue run_spec : value) : M W value :=
  try_except
    (call_method api "push_to_run_queue"
       (fun a => CPushToRunQueue a queue run_spec))
    is_Exception
    (fun e => emit (EvPrint "Exception:" e) ;;; ret VNone).

Definition agent_spec_error : string :=
  "Specify agent spec in the form: 'entity/project'".

(** The guard of [run_agent]:
    [not spec or len(spec) != 1 or len(spec[0].split("/")) != 2]. *)
Definition bad_agent_spec (spec : option (list string)) : bool :=
  match spec with
  | None => true
  | Some [] => true
  | Some [s] => negb (Nat.eqb (List.length (split slash s)) 2)
  | Some (_ :: _ :: _) => true
  end.

(** [def run_agent(spec, queues=None)]; [spec] is a list of strings or
    [None]. *)
Definition run_agent (spec : option (list string)) (queues : value)
    : M W value :=
  if bad_agent_spec spec then
    emit (EvTermError agent_spec_error) ;;;
    raise (SystemExit 1)
  else
    match spec with
    | Some (spec0 :: _) =>
        match split slash spec0 with
        | [entity; project] =>
            agent <- call_ext (CLaunchAgent entity project queues) ;;
            call_method agent "loop" CAgentLoop ;;;
            ret VNone
        | pieces =>
            raise (ValueError
              (if Nat.ltb (List.length pieces) 2
               then "not enough values to unpack"
               else "too many values to unpack"))
        end
    | _ => raise (TypeError "'NoneType' object is not subscriptable")
    end.

Definition unavailable_backend (runner_name : string)
    (known : list string) : string :=
  "Unavailable backend " +:+ runner_name +:+ ", available backends: "
    +:+ join ", " known.

(** [def _run(uri, experiment_name, wandb_project, wandb_entity,
    docker_image, entry_point, version, parameters, docker_args,
    runner_name, runner_config, storage_dir, synchronous, api=None)] *)
Definition _run
    (uri experiment_name wandb_project wandb_entity docker_image
       entry_point version parameters docker_args : value)
    (runner_name : string)
    (runner_config storage_dir synchronous api : value) : M W value :=
  project <- fetch_and_validate_project uri experiment_name api runner_name
               version entry_point parameters ;;
  wandb_project <-
    (if is_None wandb_project
     then call_method api "settings" (fun a => CApiSettings a "project")
     else ret wandb_project) ;;
  wandb_entity <-
    (if is_None wandb_entity
     then call_method api "settings" (fun a => CApiSettings a "entity")
     else ret wandb_entity) ;;
  set_docker_env project "WANDB_PROJECT" wandb_project ;;;
  set_docker_env project "WANDB_ENTITY" wandb_entity ;;;
  setitem runner_config (PROJECT_SYNCHRONOUS W) synchronous ;;;
  setitem runner_config (PROJECT_DOCKER_ARGS W) docker_args ;;;
  setitem runner_config (PROJECT_STORAGE_DIR W) storage_dir ;;;
  given <- test docker_image ;;
  (if given then setitem runner_config "DOCKER_IMAGE" docker_image
   else ret tt) ;;;
  backend <- call_ext (CLoadBackend runner_name api) ;;
  found <- test backend ;;
  if found then
    submitted_run <-
      call_method backend "run"
        (fun b => CBackendRun b project runner_config) ;;
    ret submitted_run
  else
    known <- runner_names ;;
    raise (ExecutionException (unavailable_backend runner_name known)).

(** [def _wait_for(submitted_run_obj)] *)
Definition _wait_for (submitted_run_obj : value) : M W value :=
  try_except
    (finished <- call_method submitted_run_obj "wait" CWait ;;
     ok <- test finished ;;
     if ok then
       emit (EvLogInfo "=== Submitted run succeeded ===") ;;;
       ret VNone
     else raise (ExecutionException "Submitted run failed"))
    is_KeyboardInterrupt
    (fun e =>
       emit (EvLogError "=== Submitted run interrupted, cancelling run ===") ;;;
       call_method submitted_run_obj "cancel" CCancel ;;;
       raise e).

(** [def run(uri, entry_point=None, version=None, parameters=None,
    docker_args=None, experiment_name=None, resource="local",
    wandb_project=None, wandb_entity=None, docker_image=None, config=None,
    storage_dir=None, synchronous=True, api=None)] *)
Definition run
    (uri entry_point version parameters docker_args experiment_name : value)
    (resource : string)
    (wandb_project wandb_entity docker_image config storage_dir
       synchronous api : value) : M W value :=
  is_local <- _is_wandb_local_uri uri ;;
  local <- test is_local ;;
  (if local then setitem docker_args "network" (VStr "host")
   else ret tt) ;;;
  submitted_run_obj <-
    _run uri experiment_name wandb_project wandb_entity docker_image
      entry_point version parameters docker_args resource config
      storage_dir synchronous api ;;
  sync <- test synchronous ;;
  (if sync then _wait_for submitted_run_obj else ret VNone) ;;;
  ret submitted_run_obj.

(** [run(uri)] with every optional parameter left at its default. *)
Definition run_defaults (uri : value) : M W value :=
  run uri VNone VNone VNone VNone VNone "local" VNone VNone VNone VNone
    VNone (VBool true) VNone.

End Launch.

(** ** The blocks of [_run] and [run]

    [_run] is three blocks in a row: lines 59-69 resolve the project and
    inject the project and entity names into its environment, lines 71-75
    set the reserved keys of the run configuration, lines 77-86 look the
    backend up and dispatch.  [run] puts the network override of lines
    159-160 in front and the wait of lines 178-180 behind. *)

Section Blocks.
Context {W : World}.

Definition resolve_project
    (uri experiment_name wandb_project wandb_entity entry_point version
       parameters : value) (runner_name : string) (api : value)
    : M W value :=
  project <- fetch_and_validate_project uri experiment_name api runner_name
               version entry_point parameters ;;
  wandb_project <-
    (if is_None wandb_project
     then call_method api "settings" (fun a => CApiSettings a "project")
     else ret wandb_project) ;;
  wandb_entity <-
    (if is_None wandb_entity
     then call_method api "settings" (fun a => CApiSettings a "entity")
     else ret wandb_entity) ;;
  set_docker_env project "WANDB_PROJECT" wandb_project ;;;
  set_docker_env project "WANDB_ENTITY" wandb_entity ;;;
  ret project.

Definition configure
    (runner_config synchronous docker_args storage_dir docker_image : value)
    : M W unit :=
  setitem runner_config (PROJECT_SYNCHRONOUS W) synchronous ;;;
  setitem runner_config (PROJECT_DOCKER_ARGS W) docker_args ;;;
  setitem runner_config (PROJECT_STORAGE_DIR W) storage_dir ;;;
  given <- test docker_image ;;
  if given then setitem runner_config "DOCKER_IMAGE" docker_image
  else ret tt.

Definition dispatch (runner_name : string) (api project runner_config : value)
    : M W value :=
  backend <- call_ext (CLoadBackend runner_name api) ;;
  found <- test backend ;;
  if found then
    submitted_run <-
      call_method backend "run"
        (fun b => CBackendRun b project runner_config) ;;
    ret submitted_run
  else
    known <- runner_names ;;
    raise (ExecutionException (unavailable_backend runner_name known)).

Definition network_override (uri docker_args : value) : M W unit :=
  is_local <- _is_wandb_local_uri uri ;;
  local <- test is_local ;;
  if local then setitem docker_args "network" (VStr "host")
  else ret tt.

Definition wait_if (synchronous submitted_run_obj : value) : M W value :=
  sync <- test synchronous ;;
  (if sync then _wait_for submitted_run_obj else ret VNone) ;;;
  ret submitted_run_obj.

(** The heap after lines 71-75, when [runner_config] refers to the
    dictionary at [l]. *)
Definition configured (l : loc)
    (synchronous docker_args storage_dir docker_image : value) (h : heap)
    : heap :=
  let h1 := <[l := <[PROJECT_SYNCHRONOUS W := synchronous]> (h !!! l)]> h in
  let h2 := <[l := <[PROJECT_DOCKER_ARGS W := docker_args]> (h1 !!! l)]> h1 in
  let h3 := <[l := <[PROJECT_STORAGE_DIR W := storage_dir]> (h2 !!! l)]> h2 in
  if truthy h3 docker_image
  then <[l := <["DOCKER_IMAGE" := docker_image]> (h3 !!! l)]> h3
  else h3.

End Blocks.

Arguments configured : clear implicits.

(** ** Auxiliary notions the statements are written with *)

(** The calls made while the project is resolved (lines 59-69). *)
Definition is_resolution_call (c : call) : bool :=
  match c with
  | CFetchAndValidateProject _ _ _ _ _ _ _ => true
  | CApiSettings _ _ => true
  | CSetDockerEnv _ _ _ => true
  | _ => false
  end.

Definition resolution_event (h : heap) (ev : event) : Prop :=
  exists c r, ev = EvCall c h r /\ is_resolution_call c = true.

Definition no_item_assignment (v : value) : string :=
  "'" +:+ type_name v +:+ "' object does not support item assignment".

Definition no_attribute (v : value) (attr : string) : string :=
  "'" +:+ type_name v +:+ "' object has no attribute '" +:+ attr +:+ "'".

(** How many times [cancel()] was called on the submitted run [s]. *)
Fixpoint cancel_calls (s : obj) (evs : list event) : nat :=
  match evs with
  | [] => 0
  | EvCall (CCancel s') _ _ :: evs' =>
      (if Nat.eqb s s' then 1 else 0) + cancel_calls s evs'
  | _ :: evs' => cancel_calls s evs'
  end.

Definition interrupted_message : string :=
  "=== Submitted run interrupted, cancelling run ===".

Definition succeeded_message : string :=
  "=== Submitted run succeeded ===".

(** What [run_agent] does with a malformed specifier: it reports the error
    and exits with status 1, having called no collaborator. *)
Definition agent_refused {W : World} (h : heap) (x : ext W)
    : outcome (ext W) value :=
  Outcome (Raise (SystemExit 1)) h x [EvTermError agent_spec_error].

(** What [run_agent] does with the pair [entity], [project]: it constructs
    the agent with them and enters its loop. *)
Definition agent_started {W : World} (entity project : string)
    (queues : value) (h : heap) (x : ext W) : outcome (ext W) value :=
  match respond W (CLaunchAgent entity project queues) h x with
  | (Raise e, x1) =>
      Outcome (Raise e) h x1
        [EvCall (CLaunchAgent entity project queues) h (Raise e)]
  | (Ret agent, x1) =>
      match agent with
      | VObj a =>
          let (r, x2) := respond W (CAgentLoop a) h x1 in
          Outcome (match r with Ret _ => Ret VNone | Raise e => Raise e end)
            h x2
            [EvCall (CLaunchAgent entity project queues) h (Ret agent);
             EvCall (CAgentLoop a) h r]
      | _ =>
          Outcome (Raise (AttributeError (no_attribute agent "loop"))) h x1
            [EvCall (CLaunchAgent entity project queues) h (Ret agent)]
      end
  end.

Definition is_backend_run (c : call) : bool :=
  match c with
  | CBackendRun _ _ _ => true
  | _ => false
  end.

Definition is_load_backend (c : call) : bool :=
  match c with
  | CLoadBackend _ _ => true
  | _ => false
  end.

Section Reserved.
Context {W : World}.

(** The dictionary of the run configuration after lines 71-73. *)
Definition reserved (l : loc) (synchronous docker_args storage_dir : value)
    (h : heap)
    : gmap string value :=
  <[PROJECT_STORAGE_DIR W := storage_dir]>
    (<[PROJECT_DOCKER_ARGS W := docker_args]>
       (<[PROJECT_SYNCHRONOUS W := synchronous]> (h !!! l))).

End Reserved.
Arguments reserved : clear implicits.

(** [s] occurs in [t]. *)
Definition occurs_in (s t : string) : Prop :=
  exists before after, t = before +:+ s +:+ after.

Definition host_network (l : loc) (h : heap) : heap :=
  <[l := <["network" := VStr "host"]> (h !!! l)]> h.

(** ** Concrete worlds and calls *)

(** *** A scripted world

    The collaborators answer from a fixed table and keep no state; the
    constants have the values [.utils] gives them and the registry knows the
    two built-in runners. *)
Definition scripted (answer : call -> result value) : World := {|
  ext := unit;
  respond := fun c _ x => (answer c, x);
  WANDB_RUNNERS := fun _ => ["local"; "ngc"];
  PROJECT_SYNCHRONOUS := "SYNCHRONOUS";
  PROJECT_DOCKER_ARGS := "DOCKER_ARGS";
  PROJECT_STORAGE_DIR := "STORAGE_DIR"
|}.

(** A run whose wait is interrupted by Ctrl-C and whose cancellation
    returns. *)
Definition interrupted_run : World :=
  scripted (fun c =>
    match c with
    | CWait _ => Raise (KeyboardInterrupt "")
    | _ => Ret VNone
    end).

(** A run that fails: [wait()] returns [False]. *)
Definition failed_run : World :=
  scripted (fun c =>
    match c with
    | CWait _ => Ret (VBool false)
    | _ => Ret VNone
    end).

(** The operator interrupts the queue client in the middle of a push. *)
Definition interrupted_push : World :=
  scripted (fun c =>
    match c with
    | CPushToRunQueue _ _ _ => Raise (KeyboardInterrupt "")
    | _ => Ret VNone
    end).

(** *** A world in which a launch goes through

    The resolver returns project 1, the loader finds backend 2 for the
    runner "local" and nothing for any other name, the backend returns
    submitted run 3, whose wait succeeds; [is_local] is the answer of
    [_is_wandb_local_uri]. *)
Definition launch_world (is_local : bool) : World :=
  scripted (fun c =>
    match c with
    | CIsWandbLocalUri _ => Ret (VBool is_local)
    | CFetchAndValidateProject _ _ _ _ _ _ _ => Ret (VObj 1)
    | CApiSettings _ key => Ret (VStr key)
    | CLoadBackend runner_name _ =>
        if String.eqb runner_name "local" then Ret (VObj 2) else Ret VNone
    | CBackendRun _ _ _ => Ret (VObj 3)
    | CWait _ => Ret (VBool true)
    | _ => Ret VNone
    end).

(** The caller's dictionaries: the configuration at 0, with a value of its
    own at the synchronous-flag key, and the docker arguments at 1. *)
Definition caller_heap : heap :=
  {[ 0 := {[ "SYNCHRONOUS" := VBool false; "gpus" := VInt 2 ]};
     1 := ∅ ]}.

(** [_run] for the project at [uri], with the caller's dictionaries, an api
    client, an image and the runner [runner_name]. *)
Definition launch (is_local : bool) (runner_name : string)
    : outcome unit value :=
  @_run (launch_world is_local)
    (VStr "https://github.com/wandb/examples") VNone VNone VNone
    (VStr "python:3.8") VNone VNone VNone (VDict 1) runner_name (VDict 0)
    (VStr "/tmp/launch") (VBool true) (VObj 9) caller_heap tt.

(** [run] for the project at [uri], with the caller's dictionaries, an api
    client, an image and the runner "local". *)
Definition launch_run (is_local : bool) (synchronous : value)
    : outcome unit value :=
  @run (launch_world is_local)
    (VStr "https://github.com/wandb/examples") VNone VNone VNone (VDict 1)
    VNone "local" VNone VNone (VStr "python:3.8") (VDict 0)
    (VStr "/tmp/launch") synchronous (VObj 9) caller_heap tt.

(** [run] with no configuration, but with an api client and the docker
    arguments of the caller. *)
Definition run_unconfigured : outcome unit value :=
  @run (launch_world true)
    (VStr "https://github.com/wandb/examples") VNone VNone VNone (VDict 1)
    VNone "local" VNone VNone VNone VNone VNone (VBool true) (VObj 9)
    caller_heap tt.

(** ** Notions for the further properties *)

(** How many events of [evs] are calls that satisfy [p]. *)
Fixpoint count_calls (p : call -> bool) (evs : list event) : nat :=
  match evs with
  | [] => 0
  | EvCall c _ _ :: evs' => (if p c then 1 else 0) + count_calls p evs'
  | _ :: evs' => count_calls p evs'
  end.

Definition is_wait_or_cancel (c : call) : bool :=
  match c with
  | CWait _ | CCancel _ => true
  | _ => false
  end.

Definition is_push (c : call) : bool :=
  match c with
  | CPushToRunQueue _ _ _ => true
  | _ => false
  end.

(** The value [_run] injects into the project environment for a name the
    caller gave as [given]: the caller's value, or what [api.settings]
    returned for [setting] in the trace [evs] when the caller gave [None]. *)
Definition injected (api given : value) (setting : string)
    (evs : list event) (v : value) : Prop :=
  (given <> VNone /\ v = given) \/
  (given = VNone /\
   exists a hs,
     api = VObj a /\ In (EvCall (CApiSettings a setting) hs (Ret v)) evs).

(** The name [_run] goes on with for a name the caller gave as [given]
    (lines 63-66): the caller's value, with nothing called, or else what
    [api.settings(setting)] returns in the state [x], which the call turns
    into [x']; [evs] is the trace of the step. *)
Definition defaulted (W : World) (api given : value) (setting : string)
    (h : heap) (x : ext W) (v : value) (x' : ext W) (evs : list event)
    : Prop :=
  (given <> VNone /\ v = given /\ x' = x /\ evs = []) \/
  (given = VNone /\
   exists a,
     api = VObj a /\
     respond W (CApiSettings a setting) h x = (Ret v, x') /\
     evs = [EvCall (CApiSettings a setting) h (Ret v)]).

(** *** Further worlds *)

(** [wait()] ends with an exception that is no [KeyboardInterrupt]. *)
Definition crashed_run : World :=
  scripted (fun c =>
    match c with
    | CWait _ => Raise (OtherException "RuntimeError" "lost contact")
    | _ => Ret VNone
    end).

(** The wait is interrupted, and [cancel()] fails in turn. *)
Definition uncancellable_run : World :=
  scripted (fun c =>
    match c with
    | CWait _ => Raise (KeyboardInterrupt "")
    | CCancel _ => Raise (OtherException "ProcessLookupError" "no such process")
    | _ => Ret VNone
    end).

(** A launch like that of [launch_world], but for what the submitted run
    answers to [wait()] and what the backend returns. *)
Definition launch_world_with (submitted : value) (waited : result value)
    : World :=
  scripted (fun c =>
    match c with
    | CIsWandbLocalUri _ => Ret (VBool false)
    | CFetchAndValidateProject _ _ _ _ _ _ _ => Ret (VObj 1)
    | CApiSettings _ key => Ret (VStr key)
    | CLoadBackend _ _ => Ret (VObj 2)
    | CBackendRun _ _ _ => Ret submitted
    | CWait _ => waited
    | _ => Ret VNone
    end).

(** [LaunchAgent] constructs agent 5, whose loop runs until the operator
    interrupts it. *)
Definition agent_world : World :=
  scripted (fun c =>
    match c with
    | CLaunchAgent _ _ _ => Ret (VObj 5)
    | CAgentLoop _ => Raise (KeyboardInterrupt "")
    | _ => Ret VNone
    end).

(** [run] in the world [W], with the caller's dictionaries, no image, the
    project and entity names given, and no api client. *)
Definition launch_named (W : World) (x : ext W) (docker_args : value)
    (synchronous : value) : outcome (ext W) value :=
  @run W (VStr "https://github.com/wandb/examples") VNone VNone VNone
    docker_args VNone "local" (VStr "examples") (VStr "wandb") VNone
    (VDict 0) VNone synchronous VNone caller_heap x.

(** The backend is found, and fails to dispatch. *)
Definition failing_backend : World :=
  scripted (fun c =>
    match c with
    | CIsWandbLocalUri _ => Ret (VBool false)
    | CFetchAndValidateProject _ _ _ _ _ _ _ => Ret (VObj 1)
    | CLoadBackend _ _ => Ret (VObj 2)
    | CBackendRun _ _ _ => Raise (OtherException "DispatchError" "no docker")
    | _ => Ret VNone
    end).

(** [_run] in the world [W], with the caller's dictionaries, the project
    and entity names given, no api client, and [docker_image] as image. *)
Definition dispatch_named (W : World) (x : ext W) (docker_image : value)
    : outcome (ext W) value :=
  @_run W (VStr "https://github.com/wandb/examples") VNone (VStr "examples")
    (VStr "wandb") docker_image VNone VNone VNone (VDict 1) "local" (VDict 0)
    VNone (VBool false) VNone caller_heap x.

(** The caller's configuration, holding an image of the caller's own. *)
Definition imaged_heap : heap :=
  {[ 0 := {[ "DOCKER_IMAGE" := VStr "caller:latest" ]}; 1 := ∅ ]}.

Definition is_cancel (c : call) : bool :=
  match c with
  | CCancel _ => true
  | _ => false
  end.

(** * Proofs *)

(** ** Symbolic execution of the monad *)

Section Execution.
Context {W : World}.

Lemma prepend_nil {A} (o : outcome (ext W) A) : prepend [] o = o.
Proof. by destruct o. Qed.

Lemma bind_ret {A B} (a : A) (k : A -> M W B) h x :
  bind (ret a) k h x = k a h x.
Proof. unfold bind, ret; simpl. apply prepend_nil. Qed.

Lemma bind_raise {A B} (e : exn) (k : A -> M W B) h x :
  bind (raise e) k h x = Outcome (Raise e) h x [].
Proof. reflexivity. Qed.

Lemma bind_test {B} (v : value) (k : bool -> M W B) h x :
  bind (test v) k h x = k (truthy h v) h x.
Proof. unfold bind, test; simpl. apply prepend_nil. Qed.

Lemma bind_runner_names {B} (k : list string -> M W B) h x :
  bind runner_names k h x = k (WANDB_RUNNERS W x) h x.
Proof. unfold bind, runner_names; simpl. apply prepend_nil. Qed.

Lemma bind_emit {B} (ev : event) (k : unit -> M W B) h x :
  bind (emit ev) k h x = prepend [ev] (k tt h x).
Proof. reflexivity. Qed.

Lemma bind_call_ext {B} (c : call) (k : value -> M W B) h x :
  bind (call_ext c) k h x =
  match respond W c h x with
  | (Ret v, x') => prepend [EvCall c h (Ret v)] (k v h x')
  | (Raise e, x') => Outcome (Raise e) h x' [EvCall c h (Raise e)]
  end.
Proof.
  unfold bind, call_ext. by destruct (respond W c h x) as [[v|e] x'].
Qed.

Lemma bind_setitem_dict {B} l key v (k : unit -> M W B) h x :
  bind (setitem (VDict l) key v) k h x =
  k tt (<[l := <[key := v]> (h !!! l)]> h) x.
Proof. unfold bind, setitem; simpl. apply prepend_nil. Qed.

Lemma bind_bind {A B C} (m : M W A) (k : A -> M W B) (k' : B -> M W C) h x :
  bind (bind m k) k' h x = bind m (fun a => bind (k a) k') h x.
Proof.
  unfold bind. destruct (m h x) as [[a|e] h1 x1 ev1]; simpl; [|done].
  destruct (k a h1 x1) as [[b|e] h2 x2 ev2]; simpl; [|done].
  destruct (k' b h2 x2); simpl. by rewrite app_assoc.
Qed.

Lemma try_except_outcome {A} (m : M W A) handles handler h x r h1 x1 ev1 :
  m h x = Outcome r h1 x1 ev1 ->
  try_except m handles handler h x =
  match r with
  | Ret _ => Outcome r h1 x1 ev1
  | Raise e =>
      if handles e then prepend ev1 (handler e h1 x1)
      else Outcome r h1 x1 ev1
  end.
Proof. intros Hm. unfold try_except. rewrite Hm. by destruct r. Qed.

Lemma bind_ext {A B} (m : M W A) (k k' : A -> M W B) h x :
  (forall a h' x', k a h' x' = k' a h' x') ->
  bind m k h x = bind m k' h x.
Proof.
  intros Hk. unfold bind.
  destruct (m h x) as [[a|e] h1 x1 ev1]; simpl; [|done].
  by rewrite Hk.
Qed.

(** A method call is a call to the collaborator when the receiver is an
    object, and fails with [AttributeError] otherwise. *)
Lemma call_method_cases (recv : value) (attr : string) (c : obj -> call) :
  (exists o, recv = VObj o /\
     @call_method W recv attr c = call_ext (c o)) \/
  (exists msg, @call_method W recv attr c = raise (AttributeError msg)).
Proof. destruct recv; simpl; eauto. Qed.

End Execution.

(** One step of symbolic execution of the computation at the head. *)
Ltac exec :=
  match goal with
  | |- context [bind (ret ?a) ?k ?h ?x] => rewrite (bind_ret a k h x)
  | |- context [bind (raise ?e) ?k ?h ?x] => rewrite (bind_raise e k h x)
  | |- context [bind (test ?v) ?k ?h ?x] => rewrite (bind_test v k h x)
  | |- context [bind runner_names ?k ?h ?x] =>
      rewrite (bind_runner_names k h x)
  | |- context [bind (emit ?ev) ?k ?h ?x] => rewrite (bind_emit ev k h x)
  | |- context [bind (setitem (VDict ?l) ?key ?v) ?k ?h ?x] =>
      rewrite (bind_setitem_dict l key v k h x)
  | |- context [bind (@call_ext ?W ?c) ?k ?h ?x] =>
      rewrite (bind_call_ext c k h x);
      destruct (respond W c h x) as [[?v|?e] ?x]; lazy beta iota
  | |- context [bind (@call_method ?W ?recv ?attr ?c) ?k ?h ?x] =>
      let Hrecv := fresh "Hrecv" in
      let Hcall := fresh "Hcall" in
      destruct (call_method_cases (W:=W) recv attr c)
        as [(?o & Hrecv & Hcall)|(?msg & Hcall)];
      rewrite Hcall; clear Hcall; [simplify_eq|]
  | |- context [bind (if ?b then _ else _) ?k ?h ?x] => destruct b
  end.

(** Projections of explicit outcomes, and nothing else. *)
Ltac outcome_simpl :=
  cbn [out_result out_heap out_ext out_events prepend] in *.

(** Membership in an explicit list. *)
Ltac in_list := simpl; repeat (first [left; reflexivity | right]).

Ltac resolved :=
  repeat first
    [ split; [reflexivity|]
    | apply Forall_nil_2
    | apply Forall_cons_2; [eexists _, _; split; reflexivity|] ].

Section BlockFacts.
Context {W : World}.

Lemma _run_blocks
    uri experiment_name wandb_project wandb_entity docker_image entry_point
    version parameters docker_args runner_name runner_config storage_dir
    synchronous api h (x : ext W) :
  _run uri experiment_name wandb_project wandb_entity docker_image
    entry_point version parameters docker_args runner_name runner_config
    storage_dir synchronous api h x =
  (project <- resolve_project uri experiment_name wandb_project
                wandb_entity entry_point version parameters runner_name
                api ;;
   configure runner_config synchronous docker_args storage_dir
     docker_image ;;;
   dispatch runner_name api project runner_config) h x.
Proof.
  unfold _run, resolve_project, configure, dispatch.
  repeat first
    [ reflexivity
    | rewrite bind_ret
    | rewrite bind_bind
    | apply bind_ext; intros ].
Qed.

(** Resolving the project leaves every dictionary as it was, and calls
    only the resolver, the settings provider and the project. *)
Lemma resolve_project_frame
    uri experiment_name wandb_project wandb_entity entry_point version
    parameters runner_name api h (x : ext W) :
  let o := resolve_project uri experiment_name wandb_project wandb_entity
             entry_point version parameters runner_name api h x in
  out_heap o = h /\ Forall (resolution_event h) (out_events o).
Proof.
  unfold resolve_project, fetch_and_validate_project, set_docker_env.
  repeat exec; simpl; by resolved.
Qed.

(** Lines 71-75 on a dictionary: the four assignments, in place. *)
Lemma configure_dict l synchronous docker_args storage_dir docker_image
    h (x : ext W) :
  configure (VDict l) synchronous docker_args storage_dir docker_image h x
  = Outcome (Ret tt)
      (configured W l synchronous docker_args storage_dir docker_image h)
      x [].
Proof.
  unfold configure, configured. repeat exec.
  destruct (truthy _ docker_image); reflexivity.
Qed.

(** Lines 71-75 on anything else: the first assignment fails. *)
Lemma configure_not_dict runner_config synchronous docker_args storage_dir
    docker_image h (x : ext W) :
  (forall l, runner_config <> VDict l) ->
  configure runner_config synchronous docker_args storage_dir docker_image
    h x
  = Outcome (Raise (TypeError (no_item_assignment runner_config))) h x [].
Proof.
  intros Hnd. unfold configure.
  destruct runner_config; try reflexivity. by destruct (Hnd l).
Qed.

(** Lines 77-86, case by case. *)
Lemma dispatch_cases runner_name api project runner_config h (x : ext W) :
  dispatch runner_name api project runner_config h x =
  match respond W (CLoadBackend runner_name api) h x with
  | (Raise e, x1) =>
      Outcome (Raise e) h x1
        [EvCall (CLoadBackend runner_name api) h (Raise e)]
  | (Ret backend, x1) =>
      if truthy h backend then
        match backend with
        | VObj b =>
            let (r, x2) :=
              respond W (CBackendRun b project runner_config) h x1 in
            Outcome r h x2
              [EvCall (CLoadBackend runner_name api) h (Ret backend);
               EvCall (CBackendRun b project runner_config) h r]
        | _ =>
            Outcome (Raise (AttributeError (no_attribute backend "run")))
              h x1 [EvCall (CLoadBackend runner_name api) h (Ret backend)]
        end
      else
        Outcome
          (Raise (ExecutionException
                    (unavailable_backend runner_name (WANDB_RUNNERS W x1))))
          h x1 [EvCall (CLoadBackend runner_name api) h (Ret backend)]
  end.
Proof.
  unfold dispatch. rewrite bind_call_ext.
  destruct (respond W (CLoadBackend runner_name api) h x)
    as [[backend|e] x1]; [|done].
  rewrite bind_test. destruct (truthy h backend) eqn:Ht.
  - destruct backend; try reflexivity.
    unfold call_method. rewrite bind_call_ext.
    by destruct (respond W (CBackendRun o project runner_config) h x1)
      as [[r|e] x2].
  - by rewrite bind_runner_names.
Qed.

(** [_run] as a whole, in terms of its three blocks. *)
Lemma _run_cases
    uri experiment_name wandb_project wandb_entity docker_image entry_point
    version parameters docker_args runner_name runner_config storage_dir
    synchronous api h (x : ext W) :
  let o := _run uri experiment_name wandb_project wandb_entity docker_image
             entry_point version parameters docker_args runner_name
             runner_config storage_dir synchronous api h x in
  let rp := resolve_project uri experiment_name wandb_project wandb_entity
              entry_point version parameters runner_name api h x in
  match out_result rp with
  | Raise e => o = Outcome (Raise e) h (out_ext rp) (out_events rp)
  | Ret project =>
      match runner_config with
      | VDict l =>
          o = prepend (out_events rp)
                (dispatch runner_name api project runner_config
                   (configured W l synchronous docker_args storage_dir
                      docker_image h) (out_ext rp))
      | _ =>
          o = Outcome (Raise (TypeError (no_item_assignment runner_config)))
                h (out_ext rp) (out_events rp)
      end
  end.
Proof.
  intros o rp.
  assert (Ho : o = bind (fun _ _ => rp)
                 (fun project =>
                    configure runner_config synchronous docker_args
                      storage_dir docker_image ;;;
                    dispatch runner_name api project runner_config) h x).
  { subst o. rewrite _run_blocks. reflexivity. }
  destruct (resolve_project_frame uri experiment_name wandb_project
              wandb_entity entry_point version parameters runner_name api
              h x) as [Hh _].
  fold rp in Hh. clearbody o rp. subst o. unfold bind at 1.
  destruct rp as [[project|e] h1 x1 ev1]; simpl in *; subst h1; [|done].
  destruct runner_config;
    first [ by unfold bind; rewrite configure_dict
          | by unfold bind; rewrite configure_not_dict by done;
              simpl; rewrite app_nil_r ].
Qed.

End BlockFacts.

(** ** Facts about [split] *)

Lemma split_length (sep : ascii) (s : string) :
  List.length (split sep s) = S (count sep s).
Proof.
  induction s as [|c s IH]; simpl; [done|].
  destruct (Ascii.eqb c sep); simpl; [by rewrite IH|].
  destruct (split sep s); simpl in *; congruence.
Qed.

Lemma split_join (sep : ascii) (s : string) :
  join (String sep EmptyString) (split sep s) = s.
Proof.
  unfold join. induction s as [|c s IH]; simpl; [done|].
  destruct (Ascii.eqb c sep) eqn:Hc.
  - apply Ascii.eqb_eq in Hc as ->.
    pose proof (split_length sep s) as Hlen.
    destruct (split sep s) as [|piece pieces]; [done|].
    simpl in *. by rewrite IH.
  - pose proof (split_length sep s) as Hlen.
    destruct (split sep s) as [|piece pieces]; [done|].
    simpl in *. destruct pieces; simpl in *; by rewrite <- IH.
Qed.

Lemma split_pieces (sep : ascii) (s : string) :
  Forall (fun piece => count sep piece = 0) (split sep s).
Proof.
  induction s as [|c s IH]; simpl; [by repeat constructor|].
  destruct (Ascii.eqb c sep) eqn:Hc; [by constructor|].
  destruct (split sep s) as [|piece pieces]; simpl.
  - constructor; [|done]. simpl. by rewrite Hc.
  - inversion IH; subst. constructor; [|done]. simpl. by rewrite Hc.
Qed.

(** A string with exactly one separator splits into the part before it and
    the part after it. *)
Lemma split_pair (sep : ascii) (s : string) :
  count sep s = 1 ->
  exists before after,
    split sep s = [before; after] /\
    s = before +:+ String sep after /\
    count sep before = 0 /\ count sep after = 0.
Proof.
  intros Hcount.
  pose proof (split_length sep s) as Hlen.
  pose proof (split_join sep s) as Hjoin.
  pose proof (split_pieces sep s) as Hpieces.
  rewrite Hcount in Hlen.
  destruct (split sep s) as [|before [|after [|? ?]]]; simpl in Hlen; try lia.
  exists before, after. unfold join in Hjoin. simpl in Hjoin.
  apply Forall_cons_1 in Hpieces as [Hb Hrest].
  apply Forall_cons_1 in Hrest as [Ha _].
  by repeat split.
Qed.

(** ** The synchronous wait, the queue push and the agent entry point *)

Section Wait.
Context {W : World}.

(** However [cancel()] ends, an interrupted wait logs the interruption and
    then calls [cancel()] once; the exception that leaves [_wait_for] is
    the interrupt, unless [cancel()] itself raised. *)
Lemma interrupted_wait_cancels (s : obj) (args : string) h
    (x x1 : ext W) :
  respond W (CWait s) h x = (Raise (KeyboardInterrupt args), x1) ->
  _wait_for (VObj s) h x =
  let (r, x2) := respond W (CCancel s) h x1 in
  Outcome
    (match r with
     | Ret _ => Raise (KeyboardInterrupt args)
     | Raise e => Raise e
     end) h x2
    [EvCall (CWait s) h (Raise (KeyboardInterrupt args));
     EvLogError interrupted_message;
     EvCall (CCancel s) h r].
Proof.
  intros Hwait. unfold _wait_for.
  erewrite try_except_outcome;
    [|unfold call_method; by rewrite bind_call_ext, Hwait].
  cbn [is_KeyboardInterrupt]. rewrite bind_emit.
  unfold call_method. rewrite bind_call_ext.
  by destruct (respond W (CCancel s) h x1) as [[v|e] x2].
Qed.

End Wait.

(** C1, as the code has it: when the wait of a synchronous run is
    interrupted by a [KeyboardInterrupt] before [wait()] returns,
    [_wait_for] logs the interruption and then calls [cancel()] exactly
    once on that submitted run; when [cancel()] returns, the very same
    interrupt is re-raised, and when [cancel()] itself raises, its
    exception leaves [_wait_for] in place of the interrupt.  Either way the
    [cancel()] call is in the trace before anything leaves [_wait_for]. *)
Theorem wait_for_interrupted (W : World) (s : obj) (args : string) (h : heap)
    (x x1 : ext W) :
  respond W (CWait s) h x = (Raise (KeyboardInterrupt args), x1) ->
  exists rc x2,
    respond W (CCancel s) h x1 = (rc, x2) /\
    _wait_for (VObj s) h x =
      Outcome
        (match rc with
         | Ret _ => Raise (KeyboardInterrupt args)
         | Raise e => Raise e
         end) h x2
        [EvCall (CWait s) h (Raise (KeyboardInterrupt args));
         EvLogError interrupted_message;
         EvCall (CCancel s) h rc] /\
    cancel_calls s (out_events (_wait_for (VObj s) h x)) = 1.
Proof.
  intros Hwait.
  rewrite (interrupted_wait_cancels s args h x x1 Hwait).
  destruct (respond W (CCancel s) h x1) as [rc x2].
  exists rc, x2. split; [reflexivity|]. split; [reflexivity|].
  simpl. by rewrite Nat.eqb_refl.
Qed.

Lemma wait_for_interrupted_witness :
  exists rc x2,
    respond interrupted_run (CCancel 7) ∅ tt = (rc, x2) /\
    @_wait_for interrupted_run (VObj 7) ∅ tt =
      Outcome
        (match rc with
         | Ret _ => Raise (KeyboardInterrupt "")
         | Raise e => Raise e
         end) ∅ x2
        [EvCall (CWait 7) ∅ (Raise (KeyboardInterrupt ""));
         EvLogError interrupted_message;
         EvCall (CCancel 7) ∅ rc] /\
    cancel_calls 7 (out_events (@_wait_for interrupted_run (VObj 7) ∅ tt)) = 1.
Proof.
  apply (wait_for_interrupted interrupted_run 7 "" ∅ tt tt).
  reflexivity.
Defined.

(** C1 as stated fails when [cancel()] raises: the wait is interrupted,
    [cancel()] is called, and what leaves [_wait_for] is the exception of
    [cancel()], not the interrupt. *)
Lemma wait_for_interrupt_replaced :
  respond uncancellable_run (CWait 7) ∅ tt
    = (Raise (KeyboardInterrupt ""), tt) /\
  out_result (@_wait_for uncancellable_run (VObj 7) ∅ tt)
    = Raise (OtherException "ProcessLookupError" "no such process") /\
  out_result (@_wait_for uncancellable_run (VObj 7) ∅ tt)
    <> Raise (KeyboardInterrupt "").
Proof. split; [reflexivity|]. split; [reflexivity|discriminate]. Qed.

(** C4, as the code has it: when [wait()] returns a true value, [_wait_for]
    logs the success and returns normally; when it returns a false value,
    [_wait_for] raises an [ExecutionException] whose message is
    "Submitted run failed", with a capital S. *)
Theorem wait_for_returned (W : World) (s : obj) (h : heap) (x x1 : ext W)
    (finished : value) :
  respond W (CWait s) h x = (Ret finished, x1) ->
  _wait_for (VObj s) h x =
    if truthy h finished then
      Outcome (Ret VNone) h x1
        [EvCall (CWait s) h (Ret finished); EvLogInfo succeeded_message]
    else
      Outcome (Raise (ExecutionException "Submitted run failed")) h x1
        [EvCall (CWait s) h (Ret finished)].
Proof.
  intros Hwait. unfold _wait_for.
  destruct (truthy h finished) eqn:Hok.
  - rewrite (try_except_outcome _ _ _ h x (Ret VNone) h x1
               [EvCall (CWait s) h (Ret finished);
                EvLogInfo succeeded_message]); [reflexivity|].
    unfold call_method. rewrite bind_call_ext, Hwait, bind_test, Hok.
    by rewrite bind_emit.
  - rewrite (try_except_outcome _ _ _ h x
               (Raise (ExecutionException "Submitted run failed")) h x1
               [EvCall (CWait s) h (Ret finished)]); [reflexivity|].
    unfold call_method. by rewrite bind_call_ext, Hwait, bind_test, Hok.
Qed.

Lemma wait_for_returned_witness :
  @_wait_for failed_run (VObj 7) ∅ tt =
    Outcome (Raise (ExecutionException "Submitted run failed")) ∅ tt
      [EvCall (CWait 7) ∅ (Ret (VBool false))].
Proof.
  apply (wait_for_returned failed_run 7 ∅ tt tt (VBool false)).
  reflexivity.
Defined.

(** C4 as stated fails on the message: for a run whose [wait()] returns
    [False] the exception does not carry "submitted run failed". *)
Lemma wait_for_failed_message :
  respond failed_run (CWait 7) ∅ tt = (Ret (VBool false), tt) /\
  out_result (@_wait_for failed_run (VObj 7) ∅ tt)
    <> Raise (ExecutionException "submitted run failed").
Proof. split; [reflexivity|]. vm_compute. discriminate. Qed.

(** C9, as the code has it: [push_to_queue] returns the result of a push
    that succeeds unchanged; it catches an exception of the push that is an
    instance of [Exception], prints it and returns [None]; an exception that
    is not (a [KeyboardInterrupt], a [SystemExit]) propagates, unreported. *)
Theorem push_to_queue_outcome (W : World) (api queue run_spec : value)
    (h : heap) (x : ext W) :
  push_to_queue api queue run_spec h x =
    match api with
    | VObj a =>
        match respond W (CPushToRunQueue a queue run_spec) h x with
        | (Ret res, x1) =>
            Outcome (Ret res) h x1
              [EvCall (CPushToRunQueue a queue run_spec) h (Ret res)]
        | (Raise e, x1) =>
            if is_Exception e then
              Outcome (Ret VNone) h x1
                [EvCall (CPushToRunQueue a queue run_spec) h (Raise e);
                 EvPrint "Exception:" e]
            else
              Outcome (Raise e) h x1
                [EvCall (CPushToRunQueue a queue run_spec) h (Raise e)]
        end
    | _ =>
        Outcome (Ret VNone) h x
          [EvPrint "Exception:"
             (AttributeError (no_attribute api "push_to_run_queue"))]
    end.
Proof.
  unfold push_to_queue.
  destruct api as [| | | | |a]; try reflexivity.
  unfold call_method.
  destruct (respond W (CPushToRunQueue a queue run_spec) h x)
    as [r x1] eqn:Hpush.
  rewrite (try_except_outcome _ _ _ h x r h x1
             [EvCall (CPushToRunQueue a queue run_spec) h r])
    by (unfold call_ext; by rewrite Hpush).
  destruct r as [res|e]; [done|].
  destruct (is_Exception e); [|done].
  by rewrite bind_emit.
Qed.

(** C9 as stated fails for an exception outside [Exception]: the push
    raises, and [push_to_queue] neither returns [None] nor prints. *)
Lemma push_to_queue_interrupt_propagates :
  respond interrupted_push (CPushToRunQueue 1 (VStr "default") VNone) ∅ tt
    = (Raise (KeyboardInterrupt ""), tt) /\
  @push_to_queue interrupted_push (VObj 1) (VStr "default") VNone ∅ tt =
    Outcome (Raise (KeyboardInterrupt "")) ∅ tt
      [EvCall (CPushToRunQueue 1 (VStr "default") VNone) ∅
         (Raise (KeyboardInterrupt ""))] /\
  out_result
    (@push_to_queue interrupted_push (VObj 1) (VStr "default") VNone ∅ tt)
    <> Ret VNone.
Proof. split; [reflexivity|]. split; [reflexivity|]. discriminate. Qed.

(** C7: [run_agent] exits with the non-zero status 1 ([SystemExit 1]), before any agent is
    constructed and before any collaborator is called, when the specifier is
    missing or empty, has more than one entry, or has a single entry that
    does not hold exactly one slash; for a single entry with exactly one
    slash it constructs the agent with the text before the slash as entity
    and the text after it as project, and enters the agent's loop. *)
Theorem run_agent_outcome (W : World) (spec : option (list string))
    (queues : value) (h : heap) (x : ext W) :
  match spec with
  | Some [s] =>
      if Nat.eqb (count slash s) 1 then
        exists entity project,
          s = entity +:+ "/" +:+ project /\
          count slash entity = 0 /\ count slash project = 0 /\
          run_agent spec queues h x = agent_started entity project queues h x
      else run_agent spec queues h x = agent_refused h x
  | _ => run_agent spec queues h x = agent_refused h x
  end.
Proof.
  destruct spec as [[|s [|s' rest]]|]; try reflexivity.
  destruct (Nat.eqb (count slash s) 1) eqn:Hcount.
  - apply Nat.eqb_eq in Hcount.
    destruct (split_pair slash s Hcount)
      as (entity & project & Hsplit & Hs & He & Hp).
    exists entity, project. repeat split; try done.
    unfold run_agent, bad_agent_spec, agent_started.
    rewrite Hsplit. cbn [List.length Nat.eqb negb].
    rewrite bind_call_ext.
    destruct (respond W (CLaunchAgent entity project queues) h x)
      as [[agent|e] x1]; [|done].
    destruct agent; try reflexivity.
    unfold call_method. rewrite bind_call_ext.
    by destruct (respond W (CAgentLoop o) h x1) as [[r|e] x2].
  - unfold run_agent, bad_agent_spec.
    rewrite split_length. cbn [Nat.eqb].
    by rewrite Hcount.
Qed.

(** ** The run configuration *)

Section Configuration.
Context {W : World}.

Implicit Types (l : loc) (h : heap).

Lemma configured_lookup l synchronous docker_args storage_dir docker_image
    h :
  configured W l synchronous docker_args storage_dir docker_image h !!! l
  = reserved W l synchronous docker_args storage_dir h \/
  configured W l synchronous docker_args storage_dir docker_image h !!! l
  = <["DOCKER_IMAGE" := docker_image]>
      (reserved W l synchronous docker_args storage_dir h).
Proof.
  unfold configured, reserved.
  destruct (truthy _ docker_image);
    rewrite !lookup_total_insert_eq; auto.
Qed.

Lemma configured_image l synchronous docker_args storage_dir docker_image
    h :
  truthy (configured W l synchronous docker_args storage_dir docker_image h)
    docker_image = true ->
  (configured W l synchronous docker_args storage_dir docker_image h !!! l)
    !! "DOCKER_IMAGE" = Some docker_image.
Proof.
  unfold configured. cbv zeta.
  match goal with
  | |- context [if truthy ?h3 docker_image then _ else _] =>
      destruct (truthy h3 docker_image) eqn:Hgiven; [|congruence]
  end.
  intros _. by rewrite lookup_total_insert_eq, lookup_insert_eq.
Qed.

(** Every other dictionary is left as it was. *)
Lemma configured_other l l' synchronous docker_args storage_dir
    docker_image h :
  l <> l' ->
  configured W l synchronous docker_args storage_dir docker_image h !!! l'
  = h !!! l'.
Proof.
  intros Hne. unfold configured.
  destruct (truthy _ docker_image);
    by rewrite !lookup_total_insert_ne.
Qed.

(** The keys that are not reserved keep their values. *)
Lemma configured_other_key l synchronous docker_args storage_dir
    docker_image h key :
  key ∉ [PROJECT_SYNCHRONOUS W; PROJECT_DOCKER_ARGS W;
         PROJECT_STORAGE_DIR W; "DOCKER_IMAGE"] ->
  (configured W l synchronous docker_args storage_dir docker_image h !!! l)
    !! key = (h !!! l) !! key.
Proof.
  intros Hkey.
  destruct (configured_lookup l synchronous docker_args storage_dir
              docker_image h) as [-> | ->];
    unfold reserved; rewrite !lookup_insert_ne; set_solver.
Qed.

(** In [_run], only the dispatch block calls a backend, and it passes the
    run configuration it was given, in the heap it was given. *)
Lemma dispatch_backend_run runner_name api project runner_config h
    (x : ext W) b project' cfg hb r :
  In (EvCall (CBackendRun b project' cfg) hb r)
     (out_events (dispatch runner_name api project runner_config h x)) ->
  project' = project /\ cfg = runner_config /\ hb = h /\
  out_result (dispatch runner_name api project runner_config h x) = r.
Proof.
  rewrite dispatch_cases.
  destruct (respond W (CLoadBackend runner_name api) h x)
    as [[backend|e] x1]; simpl.
  - destruct (truthy h backend).
    + destruct backend; simpl; try (intros [?|[]]; discriminate).
      destruct (respond W (CBackendRun o project runner_config) h x1)
        as [r' x2]; simpl.
      intros [?|[?|[]]]; [discriminate|]. by simplify_eq.
    + intros [?|[]]; discriminate.
  - intros [?|[]]; discriminate.
Qed.

Lemma resolution_no_dispatch h evs c hb r :
  Forall (resolution_event h) evs ->
  In (EvCall c hb r) evs ->
  is_resolution_call c = true /\ hb = h.
Proof.
  intros Hall Hin. apply list_elem_of_In in Hin.
  rewrite Forall_forall in Hall.
  destruct (Hall _ Hin) as (c' & r' & Heq & Hc). by simplify_eq.
Qed.

End Configuration.

(** C3: the run configuration a backend is dispatched with is the mapping
    the caller supplied, and in it the synchronous-flag, docker-arguments
    and storage-directory keys hold the values [_run] was called with, and
    the "DOCKER_IMAGE" key holds the image when one was given, whatever the
    caller had stored at those keys.  The four key names are distinct. *)
Theorem reserved_keys_win (W : World)
    (uri experiment_name wandb_project wandb_entity docker_image entry_point
       version parameters docker_args : value) (runner_name : string)
    (runner_config storage_dir synchronous api : value) (h : heap)
    (x : ext W) (b : obj) (project cfg : value) (hb : heap)
    (r : result value) :
  NoDup [PROJECT_SYNCHRONOUS W; PROJECT_DOCKER_ARGS W; PROJECT_STORAGE_DIR W;
         "DOCKER_IMAGE"] ->
  In (EvCall (CBackendRun b project cfg) hb r)
     (out_events
        (_run uri experiment_name wandb_project wandb_entity docker_image
           entry_point version parameters docker_args runner_name
           runner_config storage_dir synchronous api h x)) ->
  exists l,
    runner_config = VDict l /\ cfg = VDict l /\
    (hb !!! l) !! PROJECT_SYNCHRONOUS W = Some synchronous /\
    (hb !!! l) !! PROJECT_DOCKER_ARGS W = Some docker_args /\
    (hb !!! l) !! PROJECT_STORAGE_DIR W = Some storage_dir /\
    (truthy hb docker_image = true ->
     (hb !!! l) !! "DOCKER_IMAGE" = Some docker_image).
Proof.
  intros Hkeys Hin.
  pose proof (_run_cases uri experiment_name wandb_project wandb_entity
                docker_image entry_point version parameters docker_args
                runner_name runner_config storage_dir synchronous api h x)
    as Hrun.
  destruct (resolve_project_frame uri experiment_name wandb_project
              wandb_entity entry_point version parameters runner_name api
              h x) as [_ Hres].
  cbv zeta in Hrun.
  destruct (resolve_project _ _ _ _ _ _ _ _ _ h x)
    as [[project0|e] h1 x1 ev1]; simpl in Hrun, Hres.
  - destruct runner_config as [| | | |l|];
      try (rewrite Hrun in Hin; simpl in Hin;
           by destruct (resolution_no_dispatch _ _ _ _ _ Hres Hin)).
    rewrite Hrun in Hin. clear Hrun.
    set (h' := configured W l synchronous docker_args storage_dir
                 docker_image h) in *.
    destruct (dispatch runner_name api project0 (VDict l) h' x1)
      as [rd hd xd evd] eqn:Hd.
    simpl in Hin. apply in_app_or in Hin as [Hin|Hin].
    { by destruct (resolution_no_dispatch _ _ _ _ _ Hres Hin). }
    assert (Hin' : In (EvCall (CBackendRun b project cfg) hb r)
                      (out_events
                         (dispatch runner_name api project0 (VDict l) h' x1)))
      by by rewrite Hd.
    apply dispatch_backend_run in Hin' as (_ & -> & -> & _).
    exists l. split; [done|]. split; [done|].
    apply NoDup_cons in Hkeys as [Hsync Hkeys].
    apply NoDup_cons in Hkeys as [Hargs Hkeys].
    apply NoDup_cons in Hkeys as [Hdir _].
    repeat split.
    + destruct (configured_lookup (W:=W) l synchronous docker_args storage_dir
                  docker_image h) as [Hl|Hl]; subst h'; rewrite Hl;
        unfold reserved;
        rewrite ?lookup_insert_ne by set_solver; apply lookup_insert_eq.
    + destruct (configured_lookup (W:=W) l synchronous docker_args storage_dir
                  docker_image h) as [Hl|Hl]; subst h'; rewrite Hl;
        unfold reserved;
        rewrite ?lookup_insert_ne by set_solver; apply lookup_insert_eq.
    + destruct (configured_lookup (W:=W) l synchronous docker_args storage_dir
                  docker_image h) as [Hl|Hl]; subst h'; rewrite Hl;
        unfold reserved;
        rewrite ?lookup_insert_ne by set_solver; apply lookup_insert_eq.
    + apply configured_image.
  - rewrite Hrun in Hin. simpl in Hin.
    by destruct (resolution_no_dispatch _ _ _ _ _ Hres Hin).
Qed.

Example launch_local_result :
  out_result (launch false "local") = Ret (VObj 3).
Proof. reflexivity. Qed.

Lemma reserved_keys_win_witness :
  exists l,
    VDict 0 = VDict l /\ VDict 0 = VDict l /\
    (out_heap (launch false "local") !!! l) !! "SYNCHRONOUS"
      = Some (VBool true) /\
    (out_heap (launch false "local") !!! l) !! "DOCKER_ARGS"
      = Some (VDict 1) /\
    (out_heap (launch false "local") !!! l) !! "STORAGE_DIR"
      = Some (VStr "/tmp/launch") /\
    (truthy (out_heap (launch false "local")) (VStr "python:3.8") = true ->
     (out_heap (launch false "local") !!! l) !! "DOCKER_IMAGE"
       = Some (VStr "python:3.8")).
Proof.
  apply (reserved_keys_win (launch_world false)
           (VStr "https://github.com/wandb/examples") VNone VNone VNone
           (VStr "python:3.8") VNone VNone VNone (VDict 1) "local" (VDict 0)
           (VStr "/tmp/launch") (VBool true) (VObj 9) caller_heap tt
           2 (VObj 1) (VDict 0) (out_heap (launch false "local"))
           (Ret (VObj 3))).
  - apply (bool_decide_unpack _). vm_compute. exact I.
  - vm_compute. do 6 right. left. reflexivity.
Defined.

(** ** What [_run] leaves behind, and what it raises without a backend *)

Lemma append_assoc (s t u : string) : (s +:+ t) +:+ u = s +:+ t +:+ u.
Proof.
  induction s as [|c s IH]; [done|].
  change (String c ((s +:+ t) +:+ u) = String c (s +:+ t +:+ u)).
  by rewrite IH.
Qed.

Lemma append_empty_r (s : string) : s +:+ "" = s.
Proof.
  induction s as [|c s IH]; [done|].
  change (String c (s +:+ "") = String c s). by rewrite IH.
Qed.

Lemma occurs_in_append_l (s t u : string) :
  occurs_in s t -> occurs_in s (u +:+ t).
Proof.
  intros (before & after & ->). exists (u +:+ before), after.
  by rewrite append_assoc.
Qed.

Lemma occurs_in_append_r (s t u : string) :
  occurs_in s t -> occurs_in s (t +:+ u).
Proof.
  intros (before & after & ->). exists before, (after +:+ u).
  by rewrite !append_assoc.
Qed.

Lemma occurs_in_refl (s : string) : occurs_in s s.
Proof.
  exists "", "". change (s = s +:+ ""). by rewrite append_empty_r.
Qed.

(** Every piece occurs in the joined string. *)
Lemma occurs_in_join (sep name : string) (pieces : list string) :
  In name pieces -> occurs_in name (join sep pieces).
Proof.
  unfold join. induction pieces as [|piece pieces IH]; [done|].
  intros [->|Hin].
  - destruct pieces; simpl; [apply occurs_in_refl|].
    apply occurs_in_append_r, occurs_in_refl.
  - destruct pieces as [|piece' pieces]; [done|].
    change (occurs_in name
              (piece +:+ sep +:+ String.concat sep (piece' :: pieces))).
    by apply occurs_in_append_l, occurs_in_append_l, IH.
Qed.

Section Dispatch.
Context {W : World}.

(** The dispatch block leaves every dictionary as it was. *)
Lemma dispatch_heap runner_name api project runner_config h (x : ext W) :
  out_heap (dispatch runner_name api project runner_config h x) = h.
Proof.
  rewrite dispatch_cases.
  destruct (respond W (CLoadBackend runner_name api) h x)
    as [[backend|e] x1]; [|done].
  destruct (truthy h backend); [|done].
  destruct backend; try done.
  by destruct (respond W (CBackendRun o project runner_config) h x1).
Qed.

(** When the loader answers with a false value, the dispatch block raises
    the error that names the runner and the registry's keys, and calls
    nothing else. *)
Lemma dispatch_unavailable runner_name api project runner_config h
    (x : ext W) hb backend :
  In (EvCall (CLoadBackend runner_name api) hb (Ret backend))
     (out_events (dispatch runner_name api project runner_config h x)) ->
  truthy hb backend = false ->
  exists x1,
    respond W (CLoadBackend runner_name api) h x = (Ret backend, x1) /\
    hb = h /\
    dispatch runner_name api project runner_config h x =
      Outcome
        (Raise (ExecutionException
                  (unavailable_backend runner_name (WANDB_RUNNERS W x1))))
        h x1 [EvCall (CLoadBackend runner_name api) h (Ret backend)].
Proof.
  rewrite dispatch_cases.
  destruct (respond W (CLoadBackend runner_name api) h x)
    as [[backend'|e] x1]; simpl.
  - destruct (truthy h backend') eqn:Hfound.
    + destruct backend'; simpl;
        try (intros [?|[]] ?; simplify_eq; congruence).
      destruct (respond W (CBackendRun o project runner_config) h x1)
        as [r x2]; simpl.
      intros [?|[?|[]]] ?; simplify_eq.
    + intros [?|[]] ?; simplify_eq. by exists x1.
  - intros [?|[]]; discriminate.
Qed.

End Dispatch.

(** C8, as the code has it: [_run] makes no copy of the caller-supplied
    configuration.  It assigns the reserved keys in place in the caller's
    own mapping and hands that very mapping to the backend, in the state
    the assignments leave it in; so the dispatch changes the caller's
    mapping: once the project is resolved it is, after the call, the
    mapping the caller passed with the assignments of lines 71-75 applied,
    and when the resolution fails it is as the caller passed it. *)
Theorem run_config_in_place (W : World)
    (uri experiment_name wandb_project wandb_entity docker_image entry_point
       version parameters docker_args : value) (runner_name : string)
    (l : loc) (storage_dir synchronous api : value) (h : heap) (x : ext W) :
  let o := _run uri experiment_name wandb_project wandb_entity docker_image
             entry_point version parameters docker_args runner_name
             (VDict l) storage_dir synchronous api h x in
  out_heap o !!! l =
    match out_result
            (resolve_project uri experiment_name wandb_project wandb_entity
               entry_point version parameters runner_name api h x) with
    | Ret _ =>
        configured W l synchronous docker_args storage_dir docker_image h
          !!! l
    | Raise _ => h !!! l
    end /\
  (forall b project cfg hb r,
     In (EvCall (CBackendRun b project cfg) hb r) (out_events o) ->
     cfg = VDict l /\ hb !!! l = out_heap o !!! l).
Proof.
  intros o.
  pose proof (_run_cases uri experiment_name wandb_project wandb_entity
                docker_image entry_point version parameters docker_args
                runner_name (VDict l) storage_dir synchronous api h x)
    as Hrun.
  destruct (resolve_project_frame uri experiment_name wandb_project
              wandb_entity entry_point version parameters runner_name api
              h x) as [_ Hres].
  cbv zeta in Hrun. fold o in Hrun.
  destruct (resolve_project _ _ _ _ _ _ _ _ _ h x)
    as [[project0|e] h1 x1 ev1]; simpl in Hrun, Hres |- *.
  - set (h' := configured W l synchronous docker_args storage_dir
                 docker_image h) in *.
    pose proof (dispatch_heap runner_name api project0 (VDict l) h' x1)
      as Hheap.
    assert (Ho : out_heap o = h').
    { rewrite Hrun. by destruct (dispatch _ _ _ _ h' x1). }
    split; [by rewrite Ho|].
    intros b project cfg hb r Hin. rewrite Ho.
    rewrite Hrun in Hin.
    destruct (dispatch runner_name api project0 (VDict l) h' x1)
      as [rd hd xd evd] eqn:Hd.
    simpl in Hin. apply in_app_or in Hin as [Hin|Hin].
    { by destruct (resolution_no_dispatch _ _ _ _ _ Hres Hin). }
    assert (Hin' : In (EvCall (CBackendRun b project cfg) hb r)
                      (out_events
                         (dispatch runner_name api project0 (VDict l)
                            h' x1)))
      by by rewrite Hd.
    by apply dispatch_backend_run in Hin' as (_ & -> & -> & _).
  - rewrite Hrun. simpl. split; [done|].
    intros b project cfg hb r Hin.
    by destruct (resolution_no_dispatch _ _ _ _ _ Hres Hin).
Qed.

(** C8 as stated fails: after a dispatch the caller's configuration mapping
    is not what it was; the caller's own value at the synchronous-flag key
    is gone. *)
Lemma run_config_overwritten :
  (caller_heap !!! 0) !! "SYNCHRONOUS" = Some (VBool false) /\
  (out_heap (launch false "local") !!! 0) !! "SYNCHRONOUS"
    = Some (VBool true) /\
  out_heap (launch false "local") !!! 0 <> caller_heap !!! 0.
Proof.
  assert (Hnew : (out_heap (launch false "local") !!! 0) !! "SYNCHRONOUS"
                 = Some (VBool true)) by (vm_compute; reflexivity).
  assert (Hold : (caller_heap !!! 0) !! "SYNCHRONOUS" = Some (VBool false))
    by (vm_compute; reflexivity).
  split; [done|]. split; [done|].
  intros Heq. rewrite Heq in Hnew. congruence.
Qed.

(** C2: whenever the loader resolves no backend for the runner name, [_run]
    fails with an [ExecutionException] whose message names the requested
    runner and every key the registry holds when the loader has answered,
    and no backend is dispatched to. *)
Theorem unavailable_backend_error (W : World)
    (uri experiment_name wandb_project wandb_entity docker_image entry_point
       version parameters docker_args : value) (runner_name : string)
    (runner_config storage_dir synchronous api : value) (h : heap)
    (x : ext W) (hb : heap) (backend : value) :
  let o := _run uri experiment_name wandb_project wandb_entity docker_image
             entry_point version parameters docker_args runner_name
             runner_config storage_dir synchronous api h x in
  let message :=
    unavailable_backend runner_name (WANDB_RUNNERS W (out_ext o)) in
  In (EvCall (CLoadBackend runner_name api) hb (Ret backend))
     (out_events o) ->
  truthy hb backend = false ->
  out_result o = Raise (ExecutionException message) /\
  (exists x0,
     respond W (CLoadBackend runner_name api) hb x0
       = (Ret backend, out_ext o)) /\
  occurs_in runner_name message /\
  (forall name,
     In name (WANDB_RUNNERS W (out_ext o)) -> occurs_in name message) /\
  (forall c hb' r,
     In (EvCall c hb' r) (out_events o) -> is_backend_run c = false).
Proof.
  intros o message Hin Hfalse.
  assert (Hnames :
    forall known,
      occurs_in runner_name (unavailable_backend runner_name known) /\
      (forall name,
         In name known ->
         occurs_in name (unavailable_backend runner_name known))).
  { intros known. unfold unavailable_backend. split.
    - apply occurs_in_append_l, occurs_in_append_r, occurs_in_refl.
    - intros name Hname.
      by apply occurs_in_append_l, occurs_in_append_l, occurs_in_append_l,
        occurs_in_join. }
  pose proof (_run_cases uri experiment_name wandb_project wandb_entity
                docker_image entry_point version parameters docker_args
                runner_name runner_config storage_dir synchronous api h x)
    as Hrun.
  destruct (resolve_project_frame uri experiment_name wandb_project
              wandb_entity entry_point version parameters runner_name api
              h x) as [_ Hres].
  cbv zeta in Hrun. fold o in Hrun.
  destruct (resolve_project _ _ _ _ _ _ _ _ _ h x)
    as [[project0|e] h1 x1 ev1]; simpl in Hrun, Hres.
  - destruct runner_config as [| | | |l|];
      try (rewrite Hrun in Hin; simpl in Hin;
           by destruct (resolution_no_dispatch _ _ _ _ _ Hres Hin)).
    set (h' := configured W l synchronous docker_args storage_dir
                 docker_image h) in *.
    assert (Hin' : In (EvCall (CLoadBackend runner_name api) hb
                         (Ret backend))
                      (out_events
                         (dispatch runner_name api project0 (VDict l)
                            h' x1))).
    { rewrite Hrun in Hin.
      destruct (dispatch runner_name api project0 (VDict l) h' x1)
        as [rd hd xd evd].
      simpl in Hin. apply in_app_or in Hin as [Hin|Hin]; [|done].
      by destruct (resolution_no_dispatch _ _ _ _ _ Hres Hin). }
    destruct (dispatch_unavailable _ _ _ _ _ _ _ _ Hin' Hfalse)
      as (x2 & Hload & -> & Hd).
    rewrite Hd in Hrun. simpl in Hrun.
    assert (Hext : out_ext o = x2) by by rewrite Hrun.
    subst message. rewrite Hext.
    split; [by rewrite Hrun|]. split.
    { exists x1. by rewrite Hload. }
    split; [apply (proj1 (Hnames _))|]. split; [apply (proj2 (Hnames _))|].
    intros c hb' r Hc. rewrite Hrun in Hc. simpl in Hc.
    apply in_app_or in Hc as [Hc|[Hc|[]]].
    + destruct (resolution_no_dispatch _ _ _ _ _ Hres Hc) as [Hr _].
      by destruct c.
    + by simplify_eq.
  - rewrite Hrun in Hin. simpl in Hin.
    by destruct (resolution_no_dispatch _ _ _ _ _ Hres Hin).
Qed.

Example launch_unknown_runner :
  out_result (launch false "kubernetes") =
    Raise (ExecutionException
             "Unavailable backend kubernetes, available backends: local, ngc").
Proof. reflexivity. Qed.

Lemma unavailable_backend_error_witness :
  out_result (launch false "kubernetes") =
    Raise (ExecutionException
             (unavailable_backend "kubernetes" ["local"; "ngc"])) /\
  (exists x0,
     respond (launch_world false) (CLoadBackend "kubernetes" (VObj 9))
       (out_heap (launch false "kubernetes")) x0 = (Ret VNone, tt)) /\
  occurs_in "kubernetes" (unavailable_backend "kubernetes" ["local"; "ngc"]) /\
  (forall name,
     In name ["local"; "ngc"] ->
     occurs_in name (unavailable_backend "kubernetes" ["local"; "ngc"])) /\
  (forall c hb' r,
     In (EvCall c hb' r) (out_events (launch false "kubernetes")) ->
     is_backend_run c = false).
Proof.
  apply (unavailable_backend_error (launch_world false)
           (VStr "https://github.com/wandb/examples") VNone VNone VNone
           (VStr "python:3.8") VNone VNone VNone (VDict 1) "kubernetes"
           (VDict 0) (VStr "/tmp/launch") (VBool true) (VObj 9) caller_heap
           tt (out_heap (launch false "kubernetes")) VNone).
  - vm_compute. do 5 right. left. reflexivity.
  - reflexivity.
Defined.

(** ** [run]: the network override, the dispatch and the wait *)

Section Run.
Context {W : World}.

Lemma run_blocks
    uri entry_point version parameters docker_args experiment_name resource
    wandb_project wandb_entity docker_image config storage_dir synchronous
    api h (x : ext W) :
  run uri entry_point version parameters docker_args experiment_name
    resource wandb_project wandb_entity docker_image config storage_dir
    synchronous api h x =
  (network_override uri docker_args ;;;
   submitted_run_obj <-
     _run uri experiment_name wandb_project wandb_entity docker_image
       entry_point version parameters docker_args resource config
       storage_dir synchronous api ;;
   wait_if synchronous submitted_run_obj) h x.
Proof.
  unfold run, network_override, wait_if.
  repeat first
    [ reflexivity
    | rewrite bind_ret
    | rewrite bind_bind
    | apply bind_ext; intros ].
Qed.

(** Lines 159-160, case by case. *)
Lemma network_override_cases uri docker_args h (x : ext W) :
  network_override uri docker_args h x =
  match respond W (CIsWandbLocalUri uri) h x with
  | (Raise e, x0) =>
      Outcome (Raise e) h x0 [EvCall (CIsWandbLocalUri uri) h (Raise e)]
  | (Ret is_local, x0) =>
      if truthy h is_local then
        match docker_args with
        | VDict l =>
            Outcome (Ret tt) (host_network l h) x0
              [EvCall (CIsWandbLocalUri uri) h (Ret is_local)]
        | _ =>
            Outcome (Raise (TypeError (no_item_assignment docker_args))) h x0
              [EvCall (CIsWandbLocalUri uri) h (Ret is_local)]
        end
      else
        Outcome (Ret tt) h x0
          [EvCall (CIsWandbLocalUri uri) h (Ret is_local)]
  end.
Proof.
  unfold network_override, _is_wandb_local_uri. rewrite bind_call_ext.
  destruct (respond W (CIsWandbLocalUri uri) h x)
    as [[is_local|e] x0]; [|done].
  rewrite bind_test. destruct (truthy h is_local); [|done].
  by destruct docker_args.
Qed.

(** [_wait_for], case by case. *)
Lemma wait_for_cases submitted_run_obj h (x : ext W) :
  _wait_for submitted_run_obj h x =
  match submitted_run_obj with
  | VObj s =>
      match respond W (CWait s) h x with
      | (Ret finished, x1) =>
          if truthy h finished then
            Outcome (Ret VNone) h x1
              [EvCall (CWait s) h (Ret finished);
               EvLogInfo succeeded_message]
          else
            Outcome (Raise (ExecutionException "Submitted run failed")) h x1
              [EvCall (CWait s) h (Ret finished)]
      | (Raise e, x1) =>
          if is_KeyboardInterrupt e then
            let (r, x2) := respond W (CCancel s) h x1 in
            Outcome
              (match r with Ret _ => Raise e | Raise e' => Raise e' end)
              h x2
              [EvCall (CWait s) h (Raise e);
               EvLogError interrupted_message;
               EvCall (CCancel s) h r]
          else Outcome (Raise e) h x1 [EvCall (CWait s) h (Raise e)]
      end
  | _ =>
      Outcome (Raise (AttributeError (no_attribute submitted_run_obj "wait")))
        h x []
  end.
Proof.
  unfold _wait_for.
  destruct submitted_run_obj as [| | | | |s]; try reflexivity.
  unfold call_method.
  destruct (respond W (CWait s) h x) as [[finished|e] x1] eqn:Hwait.
  - destruct (truthy h finished) eqn:Hok.
    + rewrite (try_except_outcome _ _ _ h x (Ret VNone) h x1
                 [EvCall (CWait s) h (Ret finished);
                  EvLogInfo succeeded_message]); [reflexivity|].
      rewrite bind_call_ext, Hwait, bind_test, Hok. by rewrite bind_emit.
    + rewrite (try_except_outcome _ _ _ h x
                 (Raise (ExecutionException "Submitted run failed")) h x1
                 [EvCall (CWait s) h (Ret finished)]); [reflexivity|].
      by rewrite bind_call_ext, Hwait, bind_test, Hok.
  - rewrite (try_except_outcome _ _ _ h x (Raise e) h x1
               [EvCall (CWait s) h (Raise e)])
      by by rewrite bind_call_ext, Hwait.
    destruct (is_KeyboardInterrupt e); [|done].
    rewrite bind_emit, bind_call_ext.
    by destruct (respond W (CCancel s) h x1) as [[v|e'] x2].
Qed.

(** The wait leaves every dictionary as it was and calls no backend; when
    it returns, [wait()] was called on the submitted run and returned a true
    value. *)
Lemma wait_for_frame submitted_run_obj h (x : ext W) :
  let o := _wait_for submitted_run_obj h x in
  out_heap o = h /\
  (forall c hb r,
     In (EvCall c hb r) (out_events o) ->
     is_backend_run c = false /\ is_load_backend c = false /\ hb = h) /\
  (forall v,
     out_result o = Ret v ->
     exists s finished,
       submitted_run_obj = VObj s /\ truthy h finished = true /\
       In (EvCall (CWait s) h (Ret finished)) (out_events o)) /\
  (forall s hw finished,
     submitted_run_obj = VObj s ->
     In (EvCall (CWait s) hw (Ret finished)) (out_events o) ->
     truthy hw finished = true ->
     out_result o = Ret VNone).
Proof.
  intros o. subst o. rewrite wait_for_cases.
  destruct submitted_run_obj as [| | | | |s].
  1-5: by simpl; repeat split; intros; simplify_eq.
  destruct (respond W (CWait s) h x) as [[finished|e] x1];
    [destruct (truthy h finished) eqn:Hok
    |destruct (is_KeyboardInterrupt e);
       [destruct (respond W (CCancel s) h x1) as [[v|e'] x2]|]];
    simpl; repeat split; intros;
    repeat match goal with
           | H : _ \/ _ |- _ => destruct H
           | H : False |- _ => destruct H
           end;
    simplify_eq; try done; try congruence.
  exists s, finished. auto.
Qed.

End Run.

Section RunFacts.
Context {W : World}.

(** The calls of [_run]: those that resolve the project see the heap [_run]
    was entered with; the lookup and the dispatch see the heap with the
    reserved keys set, which is the heap [_run] leaves; and what a
    dispatch returns or raises is what [_run] returns or raises. *)
Lemma _run_events
    uri experiment_name wandb_project wandb_entity docker_image entry_point
    version parameters docker_args runner_name runner_config storage_dir
    synchronous api h (x : ext W) c hb r :
  let o := _run uri experiment_name wandb_project wandb_entity docker_image
             entry_point version parameters docker_args runner_name
             runner_config storage_dir synchronous api h x in
  In (EvCall c hb r) (out_events o) ->
  (is_resolution_call c = true /\ hb = h) \/
  (exists l,
     runner_config = VDict l /\
     hb = configured W l synchronous docker_args storage_dir docker_image h /\
     hb = out_heap o /\
     (is_load_backend c = true \/
      (is_backend_run c = true /\ out_result o = r))).
Proof.
  intros o Hin.
  pose proof (_run_cases uri experiment_name wandb_project wandb_entity
                docker_image entry_point version parameters docker_args
                runner_name runner_config storage_dir synchronous api h x)
    as Hrun.
  destruct (resolve_project_frame uri experiment_name wandb_project
              wandb_entity entry_point version parameters runner_name api
              h x) as [_ Hres].
  cbv zeta in Hrun. fold o in Hrun.
  destruct (resolve_project _ _ _ _ _ _ _ _ _ h x)
    as [[project0|e] h1 x1 ev1]; simpl in Hrun, Hres.
  - destruct runner_config as [| | | |l|];
      try (rewrite Hrun in Hin; simpl in Hin; left;
           by apply (resolution_no_dispatch _ _ _ _ _ Hres Hin)).
    set (h' := configured W l synchronous docker_args storage_dir
                 docker_image h) in *.
    pose proof (dispatch_heap runner_name api project0 (VDict l) h' x1)
      as Hheap.
    pose proof (dispatch_cases runner_name api project0 (VDict l) h' x1)
      as Hd.
    rewrite Hrun in Hin |- *.
    destruct (dispatch runner_name api project0 (VDict l) h' x1)
      as [rd hd xd evd].
    simpl in Hin, Hheap |- *. subst hd.
    apply in_app_or in Hin as [Hin|Hin].
    { left. by apply (resolution_no_dispatch _ _ _ _ _ Hres Hin). }
    right. exists l. split; [done|].
    destruct (respond W (CLoadBackend runner_name api) h' x1)
      as [[backend|e] x2].
    + destruct (truthy h' backend).
      * destruct backend;
          try (simplify_eq; destruct Hin as [?|[]]; simplify_eq; auto).
        destruct (respond W (CBackendRun o0 project0 (VDict l)) h' x2)
          as [r' x3].
        simplify_eq. destruct Hin as [?|[?|[]]]; simplify_eq; auto.
      * simplify_eq. destruct Hin as [?|[]]; simplify_eq; auto.
    + simplify_eq. destruct Hin as [?|[]]; simplify_eq; auto.
  - rewrite Hrun in Hin. simpl in Hin. left.
    by apply (resolution_no_dispatch _ _ _ _ _ Hres Hin).
Qed.

(** When [_run] returns, what it returns is what a backend returned. *)
Lemma _run_returns
    uri experiment_name wandb_project wandb_entity docker_image entry_point
    version parameters docker_args runner_name runner_config storage_dir
    synchronous api h (x : ext W) v :
  let o := _run uri experiment_name wandb_project wandb_entity docker_image
             entry_point version parameters docker_args runner_name
             runner_config storage_dir synchronous api h x in
  out_result o = Ret v ->
  exists b project,
    In (EvCall (CBackendRun b project runner_config) (out_heap o) (Ret v))
       (out_events o).
Proof.
  intros o Hret.
  pose proof (_run_cases uri experiment_name wandb_project wandb_entity
                docker_image entry_point version parameters docker_args
                runner_name runner_config storage_dir synchronous api h x)
    as Hrun.
  cbv zeta in Hrun. fold o in Hrun.
  destruct (resolve_project _ _ _ _ _ _ _ _ _ h x)
    as [[project0|e] h1 x1 ev1]; simpl in Hrun;
    [|rewrite Hrun in Hret; discriminate].
  destruct runner_config as [| | | |l|];
    try (rewrite Hrun in Hret; discriminate).
  set (h' := configured W l synchronous docker_args storage_dir
               docker_image h) in *.
  pose proof (dispatch_cases runner_name api project0 (VDict l) h' x1)
    as Hd.
  rewrite Hrun in Hret |- *.
  destruct (dispatch runner_name api project0 (VDict l) h' x1)
    as [rd hd xd evd].
  simpl in Hret |- *. subst rd.
  destruct (respond W (CLoadBackend runner_name api) h' x1)
    as [[backend|e] x2]; [|discriminate].
  destruct (truthy h' backend); [|discriminate].
  destruct backend; try discriminate.
  destruct (respond W (CBackendRun o0 project0 (VDict l)) h' x2)
    as [r' x3].
  simplify_eq. exists o0, project0.
  apply in_or_app. right. right. by left.
Qed.

(** Lines 178-180, case by case. *)
Lemma wait_if_cases synchronous submitted_run_obj h (x : ext W) :
  wait_if synchronous submitted_run_obj h x =
  if truthy h synchronous then
    let o := _wait_for submitted_run_obj h x in
    match out_result o with
    | Ret _ =>
        Outcome (Ret submitted_run_obj) (out_heap o) (out_ext o)
          (out_events o)
    | Raise e => Outcome (Raise e) (out_heap o) (out_ext o) (out_events o)
    end
  else Outcome (Ret submitted_run_obj) h x [].
Proof.
  unfold wait_if. rewrite bind_test.
  destruct (truthy h synchronous); [|by rewrite !bind_ret].
  unfold bind.
  destruct (_wait_for submitted_run_obj h x) as [[v|e] hw xw evw]; simpl;
    [|done].
  by rewrite app_nil_r.
Qed.

(** [run] as a whole, in terms of its three blocks. *)
Lemma run_cases
    uri entry_point version parameters docker_args experiment_name resource
    wandb_project wandb_entity docker_image config storage_dir synchronous
    api h (x : ext W) :
  run uri entry_point version parameters docker_args experiment_name
    resource wandb_project wandb_entity docker_image config storage_dir
    synchronous api h x =
  let o0 := network_override uri docker_args h x in
  match out_result o0 with
  | Raise e => Outcome (Raise e) (out_heap o0) (out_ext o0) (out_events o0)
  | Ret _ =>
      prepend (out_events o0)
        (let o1 :=
           _run uri experiment_name wandb_project wandb_entity docker_image
             entry_point version parameters docker_args resource config
             storage_dir synchronous api (out_heap o0) (out_ext o0) in
         match out_result o1 with
         | Raise e =>
             Outcome (Raise e) (out_heap o1) (out_ext o1) (out_events o1)
         | Ret submitted_run_obj =>
             prepend (out_events o1)
               (wait_if synchronous submitted_run_obj (out_heap o1)
                  (out_ext o1))
         end)
  end.
Proof. rewrite run_blocks. reflexivity. Qed.

End RunFacts.

Section RunTrace.
Context {W : World}.

(** The network override calls [_is_wandb_local_uri] and nothing else. *)
Lemma network_override_events uri docker_args h (x : ext W) c hb r :
  In (EvCall c hb r) (out_events (network_override uri docker_args h x)) ->
  c = CIsWandbLocalUri uri /\ hb = h.
Proof.
  rewrite network_override_cases.
  destruct (respond W (CIsWandbLocalUri uri) h x) as [[is_local|e] x0];
    [destruct (truthy h is_local); [destruct docker_args|]|];
    simpl; intros [?|[]]; by simplify_eq.
Qed.

(** The calls of [wait_if] are those of [_wait_for]. *)
Lemma wait_if_events synchronous submitted_run_obj h (x : ext W) ev :
  In ev (out_events (wait_if synchronous submitted_run_obj h x)) ->
  truthy h synchronous = true /\
  In ev (out_events (_wait_for submitted_run_obj h x)).
Proof.
  rewrite wait_if_cases.
  destruct (truthy h synchronous); [|done].
  cbv zeta. by destruct (_wait_for submitted_run_obj h x) as [[v|e] ? ? ?].
Qed.

End RunTrace.

(** What [run] returns is what a backend dispatch returned, after a wait
    that reported success in synchronous mode; and a dispatched run is
    returned when [synchronous] is false, or when the wait on it has
    reported success. *)
Lemma run_return_cases (W : World)
    (uri entry_point version parameters docker_args experiment_name : value)
    (resource : string)
    (wandb_project wandb_entity docker_image config storage_dir synchronous
       api : value) (h : heap) (x : ext W) (v : value) :
  let o := run uri entry_point version parameters docker_args
             experiment_name resource wandb_project wandb_entity
             docker_image config storage_dir synchronous api h x in
  (out_result o = Ret v ->
   (exists b project,
      In (EvCall (CBackendRun b project config) (out_heap o) (Ret v))
         (out_events o)) /\
   (truthy (out_heap o) synchronous = true ->
    exists s finished,
      v = VObj s /\ truthy (out_heap o) finished = true /\
      In (EvCall (CWait s) (out_heap o) (Ret finished)) (out_events o))) /\
  (forall b project cfg hb,
     In (EvCall (CBackendRun b project cfg) hb (Ret v)) (out_events o) ->
     (truthy hb synchronous = false -> out_result o = Ret v) /\
     (forall s finished,
        v = VObj s ->
        In (EvCall (CWait s) hb (Ret finished)) (out_events o) ->
        truthy hb finished = true ->
        out_result o = Ret v)).
Proof.
  intros o. subst o. rewrite run_cases. cbv zeta.
  pose proof (network_override_events uri docker_args h x) as Hev0.
  destruct (network_override uri docker_args h x)
    as [[[]|e0] h0 x0 ev0]; outcome_simpl.
  2:{ split; [done|]. intros b project cfg hb Hin.
      by destruct (Hev0 _ _ _ Hin). }
  pose proof (fun c hb r =>
                _run_events uri experiment_name wandb_project wandb_entity
                  docker_image entry_point version parameters docker_args
                  resource config storage_dir synchronous api h0 x0 c hb r)
    as Hev1.
  pose proof (fun v =>
                _run_returns uri experiment_name wandb_project wandb_entity
                  docker_image entry_point version parameters docker_args
                  resource config storage_dir synchronous api h0 x0 v)
    as Hret1.
  cbv zeta in Hev1, Hret1.
  destruct (_run uri experiment_name wandb_project wandb_entity docker_image
              entry_point version parameters docker_args resource config
              storage_dir synchronous api h0 x0)
    as [[v1|e1] h1 x1 ev1]; outcome_simpl.
  2:{ split; [done|]. intros b project cfg hb Hin.
      apply in_app_or in Hin as [Hin|Hin];
        [by destruct (Hev0 _ _ _ Hin)|].
      destruct (Hev1 _ _ _ Hin) as [[? _]|(l & _ & _ & _ & [?|[_ ?]])];
        done. }
  pose proof (wait_if_cases synchronous v1 h1 x1) as Hwi.
  pose proof (fun ev => wait_if_events synchronous v1 h1 x1 ev) as Hevw.
  pose proof (wait_for_frame v1 h1 x1) as (Hhw & Hcw & Hrw & Hww).
  destruct (wait_if synchronous v1 h1 x1) as [rw hw xw evw];
    outcome_simpl.
  assert (Hheap : hw = h1).
  { destruct (truthy h1 synchronous); [|by simplify_eq].
    cbv zeta in Hwi.
    destruct (_wait_for v1 h1 x1) as [[?|?] ? ? ?]; simpl in *;
      by simplify_eq. }
  subst hw. split.
  - intros ->.
    assert (v1 = v) as ->.
    { destruct (truthy h1 synchronous); [|by simplify_eq].
      cbv zeta in Hwi.
      destruct (_wait_for v1 h1 x1) as [[?|?] ? ? ?]; simpl in *;
        by simplify_eq. }
    split.
    + destruct (Hret1 v eq_refl) as (b & project & Hin).
      exists b, project. apply in_or_app. right. apply in_or_app. by left.
    + intros Hsync. rewrite Hsync in Hwi. cbv zeta in Hwi.
      destruct (_wait_for v h1 x1) as [[vw|ew] hw' xw' evw'] eqn:Hwf;
        simpl in *; simplify_eq.
      destruct (Hrw vw eq_refl) as (s & finished & -> & Hfin & Hin).
      exists s, finished. split; [done|]. split; [done|].
      apply in_or_app. right. apply in_or_app. by right.
  - intros b project cfg hb Hin.
    assert (v1 = v /\ hb = h1) as [-> ->].
    { apply in_app_or in Hin as [Hin|Hin];
        [by destruct (Hev0 _ _ _ Hin)|].
      apply in_app_or in Hin as [Hin|Hin].
      - destruct (Hev1 _ _ _ Hin)
          as [[? _]|(l & _ & _ & -> & [?|[_ ?]])]; try done.
        by simplify_eq.
      - destruct (Hevw _ Hin) as [_ Hin'].
        by destruct (Hcw _ _ _ Hin') as [? _]. }
    split.
    + intros Hsync. rewrite Hsync in Hwi. by simplify_eq.
    + intros s finished -> Hwait Hfin.
      destruct (truthy h1 synchronous) eqn:Hsync; [|by simplify_eq].
      apply in_app_or in Hwait as [Hwait|Hwait];
        [by destruct (Hev0 _ _ _ Hwait)|].
      apply in_app_or in Hwait as [Hwait|Hwait].
      { destruct (Hev1 _ _ _ Hwait)
          as [[? _]|(l & _ & _ & _ & [?|[? _]])]; done. }
      destruct (Hevw _ Hwait) as [_ Hwait'].
      pose proof (Hww s h1 finished eq_refl Hwait' Hfin) as Hok.
      cbv zeta in Hwi.
      destruct (_wait_for (VObj s) h1 x1) as [[?|?] ? ? ?]; simpl in *;
        by simplify_eq.
Qed.

Section RunPhases.
Context {W : World}.

(** [run] up to the wait: either it raises before a backend has returned a
    submitted run, or a backend has returned one and [run] goes on with
    lines 178-180 on it.  Nothing waits or cancels before that. *)
Lemma run_phases
    uri entry_point version parameters docker_args experiment_name resource
    wandb_project wandb_entity docker_image config storage_dir synchronous
    api h (x : ext W) :
  let o := run uri entry_point version parameters docker_args
             experiment_name resource wandb_project wandb_entity
             docker_image config storage_dir synchronous api h x in
  exists ev01 : list event,
    (forall c hb r, In (EvCall c hb r) ev01 -> is_wait_or_cancel c = false) /\
    ((exists e,
        out_result o = Raise e /\ out_events o = ev01 /\
        forall b p c hb v,
          ~ In (EvCall (CBackendRun b p c) hb (Ret v)) ev01) \/
     (exists v1 h1 x1,
        (forall b p c hb v,
           In (EvCall (CBackendRun b p c) hb (Ret v)) ev01 ->
           v = v1 /\ hb = h1) /\
        o = prepend ev01 (wait_if synchronous v1 h1 x1))).
Proof.
  intros o. subst o. rewrite run_cases. cbv zeta.
  pose proof (network_override_events uri docker_args h x) as Hev0.
  destruct (network_override uri docker_args h x)
    as [[[]|e0] h0 x0 ev0]; outcome_simpl.
  2:{ exists ev0. split.
      - intros c hb r Hin. by destruct (Hev0 _ _ _ Hin) as [-> _].
      - left. exists e0. repeat split.
        intros b p c hb v Hin. by destruct (Hev0 _ _ _ Hin). }
  pose proof (fun c hb r =>
                _run_events uri experiment_name wandb_project wandb_entity
                  docker_image entry_point version parameters docker_args
                  resource config storage_dir synchronous api h0 x0 c hb r)
    as Hev1.
  cbv zeta in Hev1.
  destruct (_run uri experiment_name wandb_project wandb_entity docker_image
              entry_point version parameters docker_args resource config
              storage_dir synchronous api h0 x0)
    as [[v1|e1] h1 x1 ev1]; outcome_simpl.
  - exists (ev0 ++ ev1)%list. split.
    + intros c hb r Hin. apply in_app_or in Hin as [Hin|Hin].
      * by destruct (Hev0 _ _ _ Hin) as [-> _].
      * destruct (Hev1 _ _ _ Hin) as [[? _]|(l & _ & _ & _ & [?|[? _]])];
          by destruct c.
    + right. exists v1, h1, x1. split.
      * intros b p c hb v Hin. apply in_app_or in Hin as [Hin|Hin];
          [by destruct (Hev0 _ _ _ Hin)|].
        destruct (Hev1 _ _ _ Hin)
          as [[? _]|(l & _ & _ & -> & [?|[_ ?]])]; try done.
        by simplify_eq.
      * destruct (wait_if synchronous v1 h1 x1). simpl.
        by rewrite app_assoc.
  - exists (ev0 ++ ev1)%list. split.
    + intros c hb r Hin. apply in_app_or in Hin as [Hin|Hin].
      * by destruct (Hev0 _ _ _ Hin) as [-> _].
      * destruct (Hev1 _ _ _ Hin) as [[? _]|(l & _ & _ & _ & [?|[? _]])];
          by destruct c.
    + left. exists e1. repeat split.
      intros b p c hb v Hin. apply in_app_or in Hin as [Hin|Hin];
        [by destruct (Hev0 _ _ _ Hin)|].
      destruct (Hev1 _ _ _ Hin) as [[? _]|(l & _ & _ & _ & [?|[_ ?]])];
        done.
Qed.
End RunPhases.

Section RunWait.
Context {W : World}.

(** A [wait()] in the trace of [_wait_for] is the wait on the run it was
    given, in the heap it was given, with the answer of the run. *)
Lemma wait_for_waited submitted_run_obj h (x : ext W) s hw r :
  In (EvCall (CWait s) hw r)
     (out_events (_wait_for submitted_run_obj h x)) ->
  submitted_run_obj = VObj s /\ hw = h /\
  exists x1, respond W (CWait s) h x = (r, x1).
Proof.
  rewrite wait_for_cases.
  destruct submitted_run_obj as [| | | | |s']; try done.
  destruct (respond W (CWait s') h x) as [[finished|e] x1] eqn:Hresp;
    [destruct (truthy h finished)
    |destruct (is_KeyboardInterrupt e);
       [destruct (respond W (CCancel s') h x1) as [rc x2]|]];
    simpl; intros Hin;
    repeat match goal with
           | H : _ \/ _ |- _ => destruct H
           | H : False |- _ => destruct H
           end;
    simplify_eq; repeat split; eauto.
Qed.

(** A [wait()] in the trace of [run] is the wait of lines 178-179, on the
    submitted run the dispatch returned. *)
Lemma run_waited
    uri entry_point version parameters docker_args experiment_name resource
    wandb_project wandb_entity docker_image config storage_dir synchronous
    api h (x : ext W) s hw r :
  let o := run uri entry_point version parameters docker_args
             experiment_name resource wandb_project wandb_entity
             docker_image config storage_dir synchronous api h x in
  In (EvCall (CWait s) hw r) (out_events o) ->
  exists (ev01 : list event) x1 x2,
    (forall c hb r, In (EvCall c hb r) ev01 -> is_wait_or_cancel c = false) /\
    respond W (CWait s) hw x1 = (r, x2) /\
    o = prepend ev01
          (let ow := _wait_for (VObj s) hw x1 in
           match out_result ow with
           | Ret _ =>
               Outcome (Ret (VObj s)) (out_heap ow) (out_ext ow)
                 (out_events ow)
           | Raise e =>
               Outcome (Raise e) (out_heap ow) (out_ext ow) (out_events ow)
           end).
Proof.
  intros o Hin.
  destruct (run_phases uri entry_point version parameters docker_args
              experiment_name resource wandb_project wandb_entity
              docker_image config storage_dir synchronous api h x)
    as (ev01 & Hquiet & [(e & _ & Hevs & _)|(v1 & h1 & x1 & _ & Ho)]);
    fold o in Hevs || fold o in Ho.
  - rewrite Hevs in Hin. by apply Hquiet in Hin.
  - rewrite Ho in Hin.
    pose proof (fun ev => wait_if_events synchronous v1 h1 x1 ev) as Hevw.
    pose proof (wait_if_cases synchronous v1 h1 x1) as Hwi.
    destruct (wait_if synchronous v1 h1 x1) as [rw hw' xw evw] eqn:Hw.
    simpl in Hin. apply in_app_or in Hin as [Hin|Hin];
      [by apply Hquiet in Hin|].
    destruct (Hevw _ Hin) as [Hsync Hin'].
    destruct (wait_for_waited _ _ _ _ _ _ Hin') as (-> & -> & x2 & Hresp).
    exists ev01, x1, x2. split; [done|]. split; [done|].
    rewrite Ho. f_equal. by rewrite Hwi, Hsync.
Qed.
End RunWait.

(** C5, as the code has it: whenever [run] returns, in synchronous mode or
    not, what it returns is the submitted run the backend dispatch
    produced; in synchronous mode it has first waited on that run, and
    [wait()] returned a true value.  A dispatched run is returned as soon
    as [synchronous] is false, and in synchronous mode as soon as the wait
    on it has returned a true value.  When the wait of a synchronous [run]
    returns a false value or raises, [run] raises and the submitted run is
    not returned. *)
Theorem run_returns_submitted_run (W : World)
    (uri entry_point version parameters docker_args experiment_name : value)
    (resource : string)
    (wandb_project wandb_entity docker_image config storage_dir synchronous
       api : value) (h : heap) (x : ext W) (v : value) :
  let o := run uri entry_point version parameters docker_args
             experiment_name resource wandb_project wandb_entity
             docker_image config storage_dir synchronous api h x in
  (out_result o = Ret v ->
   (exists b project,
      In (EvCall (CBackendRun b project config) (out_heap o) (Ret v))
         (out_events o)) /\
   (truthy (out_heap o) synchronous = true ->
    exists s finished,
      v = VObj s /\ truthy (out_heap o) finished = true /\
      In (EvCall (CWait s) (out_heap o) (Ret finished)) (out_events o))) /\
  (forall b project cfg hb,
     In (EvCall (CBackendRun b project cfg) hb (Ret v)) (out_events o) ->
     (truthy hb synchronous = false -> out_result o = Ret v) /\
     (forall s finished,
        v = VObj s ->
        In (EvCall (CWait s) hb (Ret finished)) (out_events o) ->
        truthy hb finished = true ->
        out_result o = Ret v)) /\
  (forall s hw r,
     In (EvCall (CWait s) hw r) (out_events o) ->
     (forall finished, r = Ret finished -> truthy hw finished = false) ->
     exists e, out_result o = Raise e).
Proof.
  intros o.
  destruct (run_return_cases W uri entry_point version parameters
              docker_args experiment_name resource wandb_project
              wandb_entity docker_image config storage_dir synchronous api
              h x v) as [Hreturned Hdispatched].
  split; [exact Hreturned|]. split; [exact Hdispatched|].
  intros s hw r Hin Hfailed.
  destruct (run_waited uri entry_point version parameters docker_args
              experiment_name resource wandb_project wandb_entity
              docker_image config storage_dir synchronous api h x
              s hw r Hin)
    as (ev01 & x1 & x2 & _ & Hresp & Ho).
  fold o in Ho. rewrite Ho, wait_for_cases, Hresp.
  destruct r as [finished|e].
  - rewrite (Hfailed finished eq_refl). by eexists.
  - destruct (is_KeyboardInterrupt e); [|by eexists].
    destruct (respond W (CCancel s) hw x2) as [[vc|ec] x3]; by eexists.
Qed.

Lemma run_returns_submitted_run_witness :
  (exists b project,
     In (EvCall (CBackendRun b project (VDict 0))
           (out_heap (launch_run false (VBool true))) (Ret (VObj 3)))
        (out_events (launch_run false (VBool true)))) /\
  (truthy (out_heap (launch_run false (VBool true))) (VBool true) = true ->
   exists s finished,
     VObj 3 = VObj s /\
     truthy (out_heap (launch_run false (VBool true))) finished = true /\
     In (EvCall (CWait s) (out_heap (launch_run false (VBool true)))
           (Ret finished))
        (out_events (launch_run false (VBool true)))).
Proof.
  apply (proj1 (run_returns_submitted_run (launch_world false)
                  (VStr "https://github.com/wandb/examples") VNone VNone
                  VNone (VDict 1) VNone "local" VNone VNone
                  (VStr "python:3.8") (VDict 0) (VStr "/tmp/launch")
                  (VBool true) (VObj 9) caller_heap tt (VObj 3))).
  reflexivity.
Defined.

(** C5 as stated fails for a synchronous run that fails: the backend
    dispatch has produced submitted run 3, its wait returns [False], and
    [run] raises instead of returning it. *)
Lemma run_failed_run_not_returned :
  In (EvCall (CBackendRun 2 (VObj 1) (VDict 0))
        (out_heap
           (launch_named (launch_world_with (VObj 3) (Ret (VBool false))) tt
              (VDict 1) (VBool true)))
        (Ret (VObj 3)))
     (out_events
        (launch_named (launch_world_with (VObj 3) (Ret (VBool false))) tt
           (VDict 1) (VBool true))) /\
  out_result
    (launch_named (launch_world_with (VObj 3) (Ret (VBool false))) tt
       (VDict 1) (VBool true))
    = Raise (ExecutionException "Submitted run failed") /\
  out_result
    (launch_named (launch_world_with (VObj 3) (Ret (VBool false))) tt
       (VDict 1) (VBool true))
    <> Ret (VObj 3).
Proof.
  split; [vm_compute; do 5 right; left; reflexivity|].
  split; [reflexivity|discriminate].
Qed.

Example launch_run_asynchronous :
  out_result (launch_run false (VBool false)) = Ret (VObj 3) /\
  cancel_calls 3 (out_events (launch_run false (VBool false))) = 0 /\
  List.length (out_events (launch_run false (VBool false))) = 8.
Proof. repeat split; reflexivity. Qed.

Example launch_run_synchronous :
  out_result (launch_run false (VBool true)) = Ret (VObj 3) /\
  List.length (out_events (launch_run false (VBool true))) = 10.
Proof. repeat split; reflexivity. Qed.

Section HostNetwork.
Context {W : World}.

(** [_run] leaves the heap it was entered with, or that heap with the
    reserved keys set in the run configuration. *)
Lemma _run_heap
    uri experiment_name wandb_project wandb_entity docker_image entry_point
    version parameters docker_args runner_name runner_config storage_dir
    synchronous api h (x : ext W) :
  let o := _run uri experiment_name wandb_project wandb_entity docker_image
             entry_point version parameters docker_args runner_name
             runner_config storage_dir synchronous api h x in
  out_heap o = h \/
  exists l,
    runner_config = VDict l /\
    out_heap o =
      configured W l synchronous docker_args storage_dir docker_image h.
Proof.
  intros o.
  pose proof (_run_cases uri experiment_name wandb_project wandb_entity
                docker_image entry_point version parameters docker_args
                runner_name runner_config storage_dir synchronous api h x)
    as Hrun.
  cbv zeta in Hrun. fold o in Hrun.
  destruct (resolve_project _ _ _ _ _ _ _ _ _ h x)
    as [[project0|e] h1 x1 ev1]; outcome_simpl;
    [|left; by rewrite Hrun].
  destruct runner_config as [| | | |l|]; try (left; by rewrite Hrun).
  right. exists l. split; [done|]. rewrite Hrun.
  pose proof (dispatch_heap runner_name api project0 (VDict l)
                (configured W l synchronous docker_args storage_dir
                   docker_image h) x1) as Hheap.
  by destruct (dispatch _ _ _ _ _ x1).
Qed.

(** Setting the reserved keys keeps the "network" entry of the docker
    arguments, also when they are the run configuration itself. *)
Lemma configured_keeps_network l lc synchronous docker_args storage_dir
    docker_image h v :
  "network" ∉ [PROJECT_SYNCHRONOUS W; PROJECT_DOCKER_ARGS W;
               PROJECT_STORAGE_DIR W] ->
  (h !!! l) !! "network" = Some v ->
  (configured W lc synchronous docker_args storage_dir docker_image h !!! l)
    !! "network" = Some v.
Proof.
  intros Hkeys Hnet. destruct (decide (lc = l)) as [->|Hne].
  - rewrite configured_other_key; [done|].
    apply not_elem_of_cons in Hkeys as [? Hkeys].
    apply not_elem_of_cons in Hkeys as [? Hkeys].
    apply not_elem_of_cons in Hkeys as [? _].
    repeat (apply not_elem_of_cons; split; [done|]).
    apply not_elem_of_nil.
  - by rewrite configured_other.
Qed.

End HostNetwork.

(** For a local source and docker arguments that are a mapping, [run] sets
    the "network" key of the mapping to "host" and only then enters [_run]:
    every call made from then on sees it set. *)
Lemma host_network_before_dispatch (W : World)
    (uri entry_point version parameters : value) (l : loc)
    (experiment_name : value) (resource : string)
    (wandb_project wandb_entity docker_image config storage_dir synchronous
       api : value) (h : heap) (x x0 : ext W) (is_local : value) :
  respond W (CIsWandbLocalUri uri) h x = (Ret is_local, x0) ->
  truthy h is_local = true ->
  "network" ∉ [PROJECT_SYNCHRONOUS W; PROJECT_DOCKER_ARGS W;
               PROJECT_STORAGE_DIR W] ->
  let o := run uri entry_point version parameters (VDict l) experiment_name
             resource wandb_project wandb_entity docker_image config
             storage_dir synchronous api h x in
  (host_network l h !!! l) !! "network" = Some (VStr "host") /\
  o = prepend [EvCall (CIsWandbLocalUri uri) h (Ret is_local)]
        ((submitted_run_obj <-
            _run uri experiment_name wandb_project wandb_entity docker_image
              entry_point version parameters (VDict l) resource config
              storage_dir synchronous api ;;
          wait_if synchronous submitted_run_obj) (host_network l h) x0) /\
  (forall c hb r,
     In (EvCall c hb r) (out_events o) ->
     c <> CIsWandbLocalUri uri ->
     (hb !!! l) !! "network" = Some (VStr "host")).
Proof.
  intros Hlocal Htrue Hkeys o.
  assert (Hnet : (host_network l h !!! l) !! "network" = Some (VStr "host")).
  { unfold host_network. by rewrite lookup_total_insert_eq, lookup_insert_eq. }
  assert (Ho0 : network_override uri (VDict l) h x =
                Outcome (Ret tt) (host_network l h) x0
                  [EvCall (CIsWandbLocalUri uri) h (Ret is_local)]).
  { by rewrite network_override_cases, Hlocal, Htrue. }
  split; [done|]. split.
  { subst o. rewrite run_blocks. unfold bind at 1. by rewrite Ho0. }
  intros c hb r Hin Hc. subst o. rewrite run_cases, Ho0 in Hin.
  cbv zeta in Hin. outcome_simpl.
  set (h0 := host_network l h) in *.
  pose proof (fun c hb r =>
                _run_events uri experiment_name wandb_project wandb_entity
                  docker_image entry_point version parameters (VDict l)
                  resource config storage_dir synchronous api h0 x0 c hb r)
    as Hev1.
  pose proof (_run_heap uri experiment_name wandb_project wandb_entity
                docker_image entry_point version parameters (VDict l)
                resource config storage_dir synchronous api h0 x0)
    as Hheap1.
  cbv zeta in Hev1, Hheap1.
  destruct (_run uri experiment_name wandb_project wandb_entity docker_image
              entry_point version parameters (VDict l) resource config
              storage_dir synchronous api h0 x0)
    as [[v1|e1] h1 x1 ev1]; outcome_simpl.
  - pose proof (fun ev => wait_if_events synchronous v1 h1 x1 ev) as Hevw.
    pose proof (wait_for_frame v1 h1 x1) as (_ & Hcw & _ & _).
    destruct (wait_if synchronous v1 h1 x1) as [rw hw xw evw];
      outcome_simpl.
    simpl in Hin. destruct Hin as [Hin|Hin]; [by simplify_eq|].
    apply in_app_or in Hin as [Hin|Hin].
    + destruct (Hev1 _ _ _ Hin) as [[_ ->]|(lc & _ & -> & _)]; [done|].
      by apply configured_keeps_network.
    + destruct (Hevw _ Hin) as [_ Hin'].
      destruct (Hcw _ _ _ Hin') as (_ & _ & ->).
      destruct Hheap1 as [->|(lc & _ & ->)]; [done|].
      by apply configured_keeps_network.
  - simpl in Hin. destruct Hin as [Hin|Hin]; [by simplify_eq|].
    destruct (Hev1 _ _ _ Hin) as [[_ ->]|(lc & _ & -> & _)]; [done|].
    by apply configured_keeps_network.
Qed.

(** C6, as the code has it: when [_is_wandb_local_uri] recognises the
    project source as local and the docker arguments are a mapping, [run]
    sets the "network" key of that mapping to "host" and only then enters
    [_run]: the dispatcher starts in a heap where the key is set, and every
    call made from then on, the backend dispatch included, sees it set.
    When the docker arguments are left at their default [None], the
    assignment raises a [TypeError] instead, and [_run] is not entered.
    The reserved key names differ from "network". *)
Theorem local_uri_forces_host_network (W : World)
    (uri entry_point version parameters docker_args experiment_name : value)
    (resource : string)
    (wandb_project wandb_entity docker_image config storage_dir synchronous
       api : value) (h : heap) (x x0 : ext W) (is_local : value) :
  respond W (CIsWandbLocalUri uri) h x = (Ret is_local, x0) ->
  truthy h is_local = true ->
  "network" ∉ [PROJECT_SYNCHRONOUS W; PROJECT_DOCKER_ARGS W;
               PROJECT_STORAGE_DIR W] ->
  let o := run uri entry_point version parameters docker_args
             experiment_name resource wandb_project wandb_entity
             docker_image config storage_dir synchronous api h x in
  (forall l,
     docker_args = VDict l ->
     (host_network l h !!! l) !! "network" = Some (VStr "host") /\
     o = prepend [EvCall (CIsWandbLocalUri uri) h (Ret is_local)]
           ((submitted_run_obj <-
               _run uri experiment_name wandb_project wandb_entity
                 docker_image entry_point version parameters (VDict l)
                 resource config storage_dir synchronous api ;;
             wait_if synchronous submitted_run_obj) (host_network l h) x0) /\
     (forall c hb r,
        In (EvCall c hb r) (out_events o) ->
        c <> CIsWandbLocalUri uri ->
        (hb !!! l) !! "network" = Some (VStr "host"))) /\
  (docker_args = VNone ->
   o = Outcome
         (Raise (TypeError
                   "'NoneType' object does not support item assignment"))
         h x0 [EvCall (CIsWandbLocalUri uri) h (Ret is_local)]).
Proof.
  intros Hlocal Htrue Hkeys o. split.
  - intros l ->.
    apply (host_network_before_dispatch W uri entry_point version parameters
             l experiment_name resource wandb_project wandb_entity
             docker_image config storage_dir synchronous api h x x0
             is_local Hlocal Htrue Hkeys).
  - intros ->. subst o.
    by rewrite run_cases, network_override_cases, Hlocal, Htrue.
Qed.

Lemma local_uri_forces_host_network_witness :
  (host_network 1 caller_heap !!! 1) !! "network" = Some (VStr "host") /\
  launch_run true (VBool true) =
    prepend
      [EvCall (CIsWandbLocalUri (VStr "https://github.com/wandb/examples"))
         caller_heap (Ret (VBool true))]
      ((submitted_run_obj <-
          @_run (launch_world true)
            (VStr "https://github.com/wandb/examples") VNone VNone VNone
            (VStr "python:3.8") VNone VNone VNone (VDict 1) "local"
            (VDict 0) (VStr "/tmp/launch") (VBool true) (VObj 9) ;;
        wait_if (VBool true) submitted_run_obj)
         (host_network 1 caller_heap) tt) /\
  (forall c hb r,
     In (EvCall c hb r) (out_events (launch_run true (VBool true))) ->
     c <> CIsWandbLocalUri (VStr "https://github.com/wandb/examples") ->
     (hb !!! 1) !! "network" = Some (VStr "host")).
Proof.
  refine (proj1 (local_uri_forces_host_network (launch_world true)
                   (VStr "https://github.com/wandb/examples") VNone VNone
                   VNone (VDict 1) VNone "local" VNone VNone
                   (VStr "python:3.8") (VDict 0) (VStr "/tmp/launch")
                   (VBool true) (VObj 9) caller_heap tt tt (VBool true)
                   _ _ _) 1 eq_refl).
  - reflexivity.
  - reflexivity.
  - apply (bool_decide_unpack _). vm_compute. exact I.
Defined.

(** C6 as stated fails for the docker arguments left at [None]: the source
    is local, no "network" key is set anywhere, and [run] raises before the
    dispatcher is entered. *)
Lemma local_uri_without_docker_args :
  respond (launch_world true) (CIsWandbLocalUri (VStr "./project")) ∅ tt
    = (Ret (VBool true), tt) /\
  @run_defaults (launch_world true) (VStr "./project") ∅ tt =
    Outcome
      (Raise (TypeError "'NoneType' object does not support item assignment"))
      ∅ tt
      [EvCall (CIsWandbLocalUri (VStr "./project")) ∅ (Ret (VBool true))].
Proof. split; reflexivity. Qed.

Example launch_run_local_network :
  (out_heap (launch_run true (VBool true)) !!! 1) !! "network"
    = Some (VStr "host") /\
  (out_heap (launch_run false (VBool true)) !!! 1) !! "network" = None.
Proof. split; vm_compute; reflexivity. Qed.

Lemma is_None_true (v : value) : is_None v = true <-> v = VNone.
Proof. by destruct v. Qed.

Lemma is_None_false (v : value) : is_None v = false <-> v <> VNone.
Proof. by destruct v. Qed.

Section Resolution.
Context {W : World}.

(** The trace of the lines 59-69: the settings are asked only for a name
    the caller left at [None]; the environment receives the caller's name or
    the setting; an exception of a collaborator ends the block. *)
Lemma resolve_project_trace
    uri experiment_name wandb_project wandb_entity entry_point version
    parameters runner_name api h (x : ext W) :
  let o := resolve_project uri experiment_name wandb_project wandb_entity
             entry_point version parameters runner_name api h x in
  (forall a key hs r,
     In (EvCall (CApiSettings a key) hs r) (out_events o) ->
     api = VObj a /\
     ((key = "project" /\ wandb_project = VNone) \/
      (key = "entity" /\ wandb_entity = VNone))) /\
  (forall p key v hs r,
     In (EvCall (CSetDockerEnv p key v) hs r) (out_events o) ->
     (key = "WANDB_PROJECT" /\
      injected api wandb_project "project" (out_events o) v) \/
     (key = "WANDB_ENTITY" /\
      injected api wandb_entity "entity" (out_events o) v)) /\
  (forall c hb e,
     In (EvCall c hb (Raise e)) (out_events o) ->
     out_result o = Raise e /\
     last (out_events o) = Some (EvCall c hb (Raise e))) /\
  (forall project,
     out_result o = Ret project ->
     exists p v v' r r',
       project = VObj p /\
       In (EvCall (CSetDockerEnv p "WANDB_PROJECT" v) h (Ret r))
          (out_events o) /\
       In (EvCall (CSetDockerEnv p "WANDB_ENTITY" v') h (Ret r'))
          (out_events o)).
Proof.
  unfold resolve_project, fetch_and_validate_project, set_docker_env.
  destruct (is_None wandb_project) eqn:Hp, (is_None wandb_entity) eqn:He;
    first [apply is_None_true in Hp as ->|apply is_None_false in Hp];
    first [apply is_None_true in He as ->|apply is_None_false in He];
    repeat exec; simpl; unfold injected;
    (repeat split; intros;
     repeat match goal with
            | H : _ \/ _ |- _ => destruct H
            | H : False |- _ => destruct H
            end;
     simplify_eq;
     first
       [ done
       | solve [split; reflexivity]
       | solve [first [left; split; reflexivity|right; split; reflexivity]]
       | solve [first [left; split; [reflexivity|]
                      |right; split; [reflexivity|]];
                first [left; split; [done|reflexivity]
                      |right; split; [reflexivity|];
                       eexists _, _; split; [reflexivity|in_list]]]
       | solve [eexists _, _, _, _, _; split; [reflexivity|];
                split; in_list] ]).
Qed.
End Resolution.

(** C10, as the code has it: a call of [run] that leaves [config] at [None]
    always raises, and never gets as far as looking a backend up or
    dispatching.  When the network override and the resolution of the
    project complete, the exception is the [TypeError] of the assignment of
    the synchronous-flag key into [None]; otherwise it is the exception of
    the step that failed before, unchanged: that of the network override,
    or else that of the resolution, and the exception of a collaborator
    that raised is the one [run] raises. *)
Theorem run_without_config (W : World)
    (uri entry_point version parameters docker_args experiment_name : value)
    (resource : string)
    (wandb_project wandb_entity docker_image storage_dir synchronous
       api : value) (h : heap) (x : ext W) :
  let o := run uri entry_point version parameters docker_args
             experiment_name resource wandb_project wandb_entity
             docker_image VNone storage_dir synchronous api h x in
  let o0 := network_override uri docker_args h x in
  let rp := resolve_project uri experiment_name wandb_project wandb_entity
              entry_point version parameters resource api (out_heap o0)
              (out_ext o0) in
  (exists e, out_result o = Raise e) /\
  (forall c hb r,
     In (EvCall c hb r) (out_events o) ->
     is_load_backend c = false /\ is_backend_run c = false) /\
  o = match out_result o0 with
      | Raise e =>
          Outcome (Raise e) (out_heap o0) (out_ext o0) (out_events o0)
      | Ret _ =>
          Outcome
            (match out_result rp with
             | Raise e => Raise e
             | Ret _ =>
                 Raise (TypeError
                          "'NoneType' object does not support item assignment")
             end)
            (out_heap o0) (out_ext rp) (out_events o0 ++ out_events rp)
      end /\
  (forall c hb e,
     In (EvCall c hb (Raise e)) (out_events o) -> out_result o = Raise e).
Proof.
  intros o o0 rp. subst o. rewrite run_cases. cbv zeta. fold o0.
  pose proof (network_override_events uri docker_args h x) as Hev0.
  assert (Hraise0 : forall c hb e,
            In (EvCall c hb (Raise e)) (out_events o0) ->
            out_result o0 = Raise e).
  { subst o0. rewrite network_override_cases.
    destruct (respond W (CIsWandbLocalUri uri) h x)
      as [[is_local|e0] x0];
      [destruct (truthy h is_local); [destruct docker_args|]|];
      simpl; intros c hb e [?|[]]; by simplify_eq. }
  fold o0 in Hev0.
  pose proof (_run_cases uri experiment_name wandb_project wandb_entity
                docker_image entry_point version parameters docker_args
                resource VNone storage_dir synchronous api (out_heap o0)
                (out_ext o0)) as Hrun.
  destruct (resolve_project_frame uri experiment_name wandb_project
              wandb_entity entry_point version parameters resource api
              (out_heap o0) (out_ext o0)) as [Hh1 Hres].
  destruct (resolve_project_trace uri experiment_name wandb_project
              wandb_entity entry_point version parameters resource api
              (out_heap o0) (out_ext o0)) as (_ & _ & Hraise1 & _).
  cbv zeta in Hrun, Hh1, Hres, Hraise1. fold rp in Hrun, Hh1, Hres, Hraise1.
  clearbody rp o0.
  destruct o0 as [[[]|e0] h0 x0 ev0]; outcome_simpl.
  2:{ split; [by eexists|]. split; [|split; [done|]].
      - intros c hb r Hin. by destruct (Hev0 _ _ _ Hin) as [-> _].
      - intros c hb e Hin. pose proof (Hraise0 _ _ _ Hin). by simplify_eq. }
  destruct rp as [[project0|e] h1 x1 ev1]; outcome_simpl; rewrite Hrun;
    outcome_simpl; subst h1.
  - split; [by eexists|]. split; [|split; [done|]].
    + intros c hb r Hin. apply in_app_or in Hin as [Hin|Hin].
      * by destruct (Hev0 _ _ _ Hin) as [-> _].
      * destruct (resolution_no_dispatch _ _ _ _ _ Hres Hin) as [Hc _].
        by destruct c.
    + intros c hb e Hin. apply in_app_or in Hin as [Hin|Hin].
      * pose proof (Hraise0 _ _ _ Hin). by simplify_eq.
      * by destruct (Hraise1 _ _ _ Hin).
  - split; [by eexists|]. split; [|split; [done|]].
    + intros c hb r Hin. apply in_app_or in Hin as [Hin|Hin].
      * by destruct (Hev0 _ _ _ Hin) as [-> _].
      * destruct (resolution_no_dispatch _ _ _ _ _ Hres Hin) as [Hc _].
        by destruct c.
    + intros c hb e' Hin. apply in_app_or in Hin as [Hin|Hin].
      * pose proof (Hraise0 _ _ _ Hin). by simplify_eq.
      * by destruct (Hraise1 _ _ _ Hin).
Qed.

Lemma run_without_config_witness :
  exists evs,
    run_unconfigured =
      Outcome
        (Raise (TypeError
                  "'NoneType' object does not support item assignment"))
        (host_network 1 caller_heap) tt evs /\
    List.length evs = 6.
Proof.
  eexists. split.
  - etransitivity.
    + apply (proj1 (proj2 (proj2 (run_without_config (launch_world true)
                                    (VStr "https://github.com/wandb/examples")
                                    VNone VNone VNone (VDict 1) VNone "local"
                                    VNone VNone VNone VNone (VBool true)
                                    (VObj 9) caller_heap tt)))).
    + reflexivity.
  - reflexivity.
Defined.

(** C10 as stated fails: with every optional parameter at its default the
    call does not reach the assignment.  For a source that is not local it
    raises the [AttributeError] of [api.settings] on the [None] api; for a
    local source it raises in [run] itself, on the [None] docker arguments,
    before [_run] is entered. *)
Lemma run_defaults_fails_earlier :
  @run_defaults (launch_world false)
    (VStr "https://github.com/wandb/examples") ∅ tt =
    Outcome
      (Raise (AttributeError "'NoneType' object has no attribute 'settings'"))
      ∅ tt
      [EvCall (CIsWandbLocalUri (VStr "https://github.com/wandb/examples")) ∅
         (Ret (VBool false));
       EvCall
         (CFetchAndValidateProject (VStr "https://github.com/wandb/examples")
            VNone VNone "local" VNone VNone VNone) ∅ (Ret (VObj 1))] /\
  out_result
    (@run_defaults (launch_world false)
       (VStr "https://github.com/wandb/examples") ∅ tt)
    <> Raise (TypeError "'NoneType' object does not support item assignment")
  /\
  out_events (@run_defaults (launch_world true) (VStr "./project") ∅ tt) =
    [EvCall (CIsWandbLocalUri (VStr "./project")) ∅ (Ret (VBool true))].
Proof. split; [reflexivity|]. split; [discriminate|reflexivity]. Qed.

(** * Further properties of the module *)

(** ** [_wait_for] *)

(** X1: an exception of [wait()] that is not a [KeyboardInterrupt] leaves
    [_wait_for] unchanged; nothing is logged and [cancel()] is not called. *)
Theorem wait_for_other_exception (W : World) (s : obj) (h : heap)
    (x x1 : ext W) (e : exn) :
  respond W (CWait s) h x = (Raise e, x1) ->
  is_KeyboardInterrupt e = false ->
  _wait_for (VObj s) h x =
    Outcome (Raise e) h x1 [EvCall (CWait s) h (Raise e)] /\
  cancel_calls s (out_events (_wait_for (VObj s) h x)) = 0.
Proof.
  intros Hwait Hother. rewrite wait_for_cases, Hwait, Hother.
  by split.
Qed.

Lemma wait_for_other_exception_witness :
  @_wait_for crashed_run (VObj 7) ∅ tt =
    Outcome (Raise (OtherException "RuntimeError" "lost contact")) ∅ tt
      [EvCall (CWait 7) ∅
         (Raise (OtherException "RuntimeError" "lost contact"))] /\
  cancel_calls 7 (out_events (@_wait_for crashed_run (VObj 7) ∅ tt)) = 0.
Proof.
  apply (wait_for_other_exception crashed_run 7 ∅ tt tt
           (OtherException "RuntimeError" "lost contact"));
    reflexivity.
Defined.

(** X2: when the wait is interrupted and [cancel()] raises in turn, the
    exception of [cancel()] leaves [_wait_for] in place of the interrupt;
    [cancel()] was still called once, after the log line. *)
Theorem wait_for_cancel_fails (W : World) (s : obj) (args : string)
    (h : heap) (x x1 x2 : ext W) (e : exn) :
  respond W (CWait s) h x = (Raise (KeyboardInterrupt args), x1) ->
  respond W (CCancel s) h x1 = (Raise e, x2) ->
  _wait_for (VObj s) h x =
    Outcome (Raise e) h x2
      [EvCall (CWait s) h (Raise (KeyboardInterrupt args));
       EvLogError interrupted_message;
       EvCall (CCancel s) h (Raise e)].
Proof.
  intros Hwait Hcancel. by rewrite wait_for_cases, Hwait, Hcancel.
Qed.

Lemma wait_for_cancel_fails_witness :
  @_wait_for uncancellable_run (VObj 7) ∅ tt =
    Outcome (Raise (OtherException "ProcessLookupError" "no such process"))
      ∅ tt
      [EvCall (CWait 7) ∅ (Raise (KeyboardInterrupt ""));
       EvLogError interrupted_message;
       EvCall (CCancel 7) ∅
         (Raise (OtherException "ProcessLookupError" "no such process"))].
Proof.
  apply (wait_for_cancel_fails uncancellable_run 7 "" ∅ tt tt tt
           (OtherException "ProcessLookupError" "no such process"));
    reflexivity.
Defined.

(** X3: whatever it is given, [_wait_for] calls [wait()] at most once and
    [cancel()] at most once, calls nothing else, and leaves every
    dictionary as it was: there is no polling and no retry. *)
Theorem wait_for_calls_once (W : World) (submitted_run_obj : value)
    (h : heap) (x : ext W) :
  let o := _wait_for submitted_run_obj h x in
  out_heap o = h /\
  count_calls (fun c => match c with CWait _ => true | _ => false end)
    (out_events o) <= 1 /\
  count_calls (fun c => match c with CCancel _ => true | _ => false end)
    (out_events o) <= 1 /\
  count_calls (fun c => negb (is_wait_or_cancel c)) (out_events o) = 0.
Proof.
  intros o. subst o. rewrite wait_for_cases.
  destruct submitted_run_obj as [| | | | |s]; try (simpl; repeat split; lia).
  destruct (respond W (CWait s) h x) as [[finished|e] x1].
  - destruct (truthy h finished); simpl; repeat split; lia.
  - destruct (is_KeyboardInterrupt e); [|simpl; repeat split; lia].
    destruct (respond W (CCancel s) h x1) as [r x2].
    simpl; repeat split; lia.
Qed.

(** ** [push_to_queue] *)

(** X4: provided the [print] of line 24 returns, as the model has it, no
    instance of [Exception] leaves [push_to_queue], whatever the api object
    is, also when it is [None]; the queue is pushed to at most once and no
    dictionary is changed. *)
Theorem push_to_queue_contains_exceptions (W : World)
    (api queue run_spec : value) (h : heap) (x : ext W) :
  let o := push_to_queue api queue run_spec h x in
  (forall e, out_result o = Raise e -> is_Exception e = false) /\
  count_calls is_push (out_events o) <= 1 /\
  count_calls (fun c => negb (is_push c)) (out_events o) = 0 /\
  out_heap o = h.
Proof.
  intros o. subst o. unfold push_to_queue.
  destruct api as [| | | | |a];
    try (simpl; repeat split; [intros e ?; discriminate|lia]).
  unfold call_method.
  destruct (respond W (CPushToRunQueue a queue run_spec) h x)
    as [r x1] eqn:Hpush.
  rewrite (try_except_outcome _ _ _ h x r h x1
             [EvCall (CPushToRunQueue a queue run_spec) h r])
    by (unfold call_ext; by rewrite Hpush).
  destruct r as [res|e]; [simpl; repeat split; [intros e ?|lia]; done|].
  destruct (is_Exception e) eqn:He.
  - rewrite bind_emit. simpl. repeat split; [intros e' ?|lia]; done.
  - simpl. repeat split; [|lia]. intros e' ?. by simplify_eq.
Qed.

(** ** [run_agent] *)

Lemma split_no_separator (sep : ascii) (s : string) :
  count sep s = 0 -> split sep s = [s].
Proof.
  induction s as [|c s IH]; simpl; [done|].
  destruct (Ascii.eqb c sep); [done|].
  intros Hcount. by rewrite IH.
Qed.

Lemma split_at_separator (sep : ascii) (before after : string) :
  count sep before = 0 ->
  split sep (before +:+ String sep after) = before :: split sep after.
Proof.
  induction before as [|c before IH]; intros Hcount.
  - change (split sep (String sep after) = "" :: split sep after).
    simpl. by rewrite Ascii.eqb_refl.
  - change (split sep (String c (before +:+ String sep after))
            = String c before :: split sep after).
    simpl in Hcount |- *.
    destruct (Ascii.eqb c sep); [done|]. by rewrite IH.
Qed.

(** X5: for an entity and a project without a slash, the empty string
    included, [run_agent] on the single entry "entity/project" constructs
    the agent with exactly that entity and that project and enters its
    loop: a missing entity or project name is not refused. *)
Theorem run_agent_pair (W : World) (entity project : string)
    (queues : value) (h : heap) (x : ext W) :
  count slash entity = 0 ->
  count slash project = 0 ->
  run_agent (Some [entity +:+ "/" +:+ project]) queues h x =
    agent_started entity project queues h x.
Proof.
  intros Hentity Hproject.
  assert (Hsplit : split slash (entity +:+ "/" +:+ project)
                   = [entity; project]).
  { change (entity +:+ "/" +:+ project)
      with (entity +:+ String slash project).
    by rewrite split_at_separator, split_no_separator. }
  unfold run_agent, bad_agent_spec, agent_started.
  rewrite Hsplit. cbn [List.length Nat.eqb negb].
  rewrite bind_call_ext.
  destruct (respond W (CLaunchAgent entity project queues) h x)
    as [[agent|e] x1]; [|done].
  destruct agent; try reflexivity.
  unfold call_method. rewrite bind_call_ext.
  by destruct (respond W (CAgentLoop o) h x1) as [[r|e] x2].
Qed.

Lemma run_agent_pair_witness :
  @run_agent agent_world (Some ["wandb/"]) VNone ∅ tt =
    Outcome (Raise (KeyboardInterrupt "")) ∅ tt
      [EvCall (CLaunchAgent "wandb" "" VNone) ∅ (Ret (VObj 5));
       EvCall (CAgentLoop 5) ∅ (Raise (KeyboardInterrupt ""))].
Proof.
  apply (run_agent_pair agent_world "wandb" "" VNone ∅ tt); reflexivity.
Defined.

(** ** [_run] *)

Lemma count_calls_app (p : call -> bool) (evs evs' : list event) :
  count_calls p (evs ++ evs') = count_calls p evs + count_calls p evs'.
Proof.
  induction evs as [|[c hb r| | | |] evs IH]; simpl; try done.
  rewrite IH. lia.
Qed.

(** No call of the trace satisfies [p]. *)
Lemma count_calls_none (p : call -> bool) (evs : list event) :
  (forall c hb r, In (EvCall c hb r) evs -> p c = false) ->
  count_calls p evs = 0.
Proof.
  induction evs as [|ev evs IH]; intros Hnone; [done|].
  assert (Hrest : count_calls p evs = 0)
    by (apply IH; intros; eapply Hnone; by right).
  destruct ev as [c hb r| | | |]; simpl; try done.
  by rewrite (Hnone c hb r), Hrest by by left.
Qed.

Section RunTraceFacts.
Context {W : World}.

(** The trace of the lines 77-86. *)
Lemma dispatch_trace runner_name api project runner_config h (x : ext W) :
  let o := dispatch runner_name api project runner_config h x in
  (forall c hb r,
     In (EvCall c hb r) (out_events o) ->
     is_load_backend c = true \/ is_backend_run c = true) /\
  Forall (fun ev => exists c hb r, ev = EvCall c hb r) (out_events o) /\
  count_calls is_load_backend (out_events o) <= 1 /\
  count_calls is_backend_run (out_events o) <= 1 /\
  (forall c hb e,
     In (EvCall c hb (Raise e)) (out_events o) ->
     out_result o = Raise e /\
     last (out_events o) = Some (EvCall c hb (Raise e))).
Proof.
  intros o. subst o. rewrite dispatch_cases.
  destruct (respond W (CLoadBackend runner_name api) h x)
    as [[backend|e] x1];
    [destruct (truthy h backend);
       [destruct backend;
          try destruct (respond W (CBackendRun o project runner_config)
                          h x1) as [[v|e] x2]|]|];
    simpl;
    (repeat split; try lia;
     [intros; repeat match goal with
                     | H : _ \/ _ |- _ => destruct H
                     | H : False |- _ => destruct H
                     end; simplify_eq; auto
     |repeat constructor; eauto
     |intros; repeat match goal with
                     | H : _ \/ _ |- _ => destruct H
                     | H : False |- _ => destruct H
                     end; simplify_eq; auto ..]).
Qed.

(** The trace of [_run] is the trace of the resolution followed by the
    trace of the lookup and the dispatch, which is empty when the
    resolution or the configuration failed. *)
Lemma _run_trace
    uri experiment_name wandb_project wandb_entity docker_image entry_point
    version parameters docker_args runner_name runner_config storage_dir
    synchronous api h (x : ext W) :
  let o := _run uri experiment_name wandb_project wandb_entity docker_image
             entry_point version parameters docker_args runner_name
             runner_config storage_dir synchronous api h x in
  let rp := resolve_project uri experiment_name wandb_project wandb_entity
              entry_point version parameters runner_name api h x in
  exists evd : list event,
    out_events o = (out_events rp ++ evd)%list /\
    (forall c hb r,
       In (EvCall c hb r) evd ->
       is_load_backend c = true \/ is_backend_run c = true) /\
    count_calls is_load_backend evd <= 1 /\
    count_calls is_backend_run evd <= 1 /\
    (forall e, out_result rp = Raise e -> evd = [] /\ out_result o = Raise e) /\
    (evd <> [] -> exists project, out_result rp = Ret project) /\
    (forall c hb e,
       In (EvCall c hb (Raise e)) evd ->
       out_result o = Raise e /\ last evd = Some (EvCall c hb (Raise e))).
Proof.
  intros o rp.
  pose proof (_run_cases uri experiment_name wandb_project wandb_entity
                docker_image entry_point version parameters docker_args
                runner_name runner_config storage_dir synchronous api h x)
    as Hrun.
  cbv zeta in Hrun. fold o rp in Hrun.
  destruct rp as [[project0|e] h1 x1 ev1]; outcome_simpl.
  - destruct runner_config as [| | | |l|];
      try (exists []; rewrite Hrun; simpl; rewrite app_nil_r;
           repeat split; try done; lia).
    pose proof (dispatch_trace runner_name api project0 (VDict l)
                  (configured W l synchronous docker_args storage_dir
                     docker_image h) x1) as (Hc & _ & Hl & Hb & Hr).
    rewrite Hrun.
    destruct (dispatch runner_name api project0 (VDict l) _ x1)
      as [rd hd xd evd]; outcome_simpl.
    exists evd. repeat split; try done; intros; try by eapply Hr.
    by exists project0.
  - exists []. rewrite Hrun. simpl. rewrite app_nil_r.
    repeat split; try done; try lia; intros; by simplify_eq.
Qed.
End RunTraceFacts.

(** X6: [_run] asks [api.settings] only for a name the caller left at
    [None], "project" for the project and "entity" for the entity: with both
    names given the api is never asked, and may be [None]. *)
Theorem run_asks_settings_for_missing (W : World)
    (uri experiment_name wandb_project wandb_entity docker_image entry_point
       version parameters docker_args : value) (runner_name : string)
    (runner_config storage_dir synchronous api : value) (h : heap)
    (x : ext W) (a : obj) (key : string) (hs : heap) (r : result value) :
  In (EvCall (CApiSettings a key) hs r)
     (out_events
        (_run uri experiment_name wandb_project wandb_entity docker_image
           entry_point version parameters docker_args runner_name
           runner_config storage_dir synchronous api h x)) ->
  api = VObj a /\
  ((key = "project" /\ wandb_project = VNone) \/
   (key = "entity" /\ wandb_entity = VNone)).
Proof.
  intros Hin.
  destruct (_run_trace uri experiment_name wandb_project wandb_entity
              docker_image entry_point version parameters docker_args
              runner_name runner_config storage_dir synchronous api h x)
    as (evd & Hevs & Hevd & _).
  destruct (resolve_project_trace uri experiment_name wandb_project
              wandb_entity entry_point version parameters runner_name api
              h x) as (Hsettings & _).
  rewrite Hevs in Hin. apply in_app_or in Hin as [Hin|Hin].
  - by apply (Hsettings a key hs r).
  - by destruct (Hevd _ _ _ Hin).
Qed.

Lemma run_asks_settings_for_missing_witness :
  VObj 9 = VObj 9 /\
  (("entity" = "project" /\ VNone = VNone) \/
   ("entity" = "entity" /\ VNone = VNone)).
Proof.
  apply (run_asks_settings_for_missing (launch_world false)
           (VStr "https://github.com/wandb/examples") VNone VNone VNone
           (VStr "python:3.8") VNone VNone VNone (VDict 1) "local" (VDict 0)
           (VStr "/tmp/launch") (VBool true) (VObj 9) caller_heap tt
           9 "entity" caller_heap (Ret (VStr "entity"))).
  vm_compute. do 2 right. left. reflexivity.
Defined.

Section Injection.
Context {W : World}.

(** Lines 59-69 when every collaborator returns: the project is fetched,
    the names left at [None] are asked for, and the two names are stored in
    the environment of the project, in this order. *)
Lemma resolve_project_stores
    uri experiment_name wandb_project wandb_entity entry_point version
    parameters runner_name api h (x : ext W) p vp ve r1 r2 x1 x2 x3 x4 x5
    evp eve :
  respond W (CFetchAndValidateProject uri experiment_name api runner_name
               version entry_point parameters) h x = (Ret (VObj p), x1) ->
  defaulted W api wandb_project "project" h x1 vp x2 evp ->
  defaulted W api wandb_entity "entity" h x2 ve x3 eve ->
  respond W (CSetDockerEnv p "WANDB_PROJECT" vp) h x3 = (Ret r1, x4) ->
  respond W (CSetDockerEnv p "WANDB_ENTITY" ve) h x4 = (Ret r2, x5) ->
  resolve_project uri experiment_name wandb_project wandb_entity entry_point
    version parameters runner_name api h x =
  Outcome (Ret (VObj p)) h x5
    (EvCall (CFetchAndValidateProject uri experiment_name api runner_name
               version entry_point parameters) h (Ret (VObj p))
     :: evp ++ eve ++
        [EvCall (CSetDockerEnv p "WANDB_PROJECT" vp) h (Ret r1);
         EvCall (CSetDockerEnv p "WANDB_ENTITY" ve) h (Ret r2)])%list.
Proof.
  intros Hfetch Hproject Hentity Hset1 Hset2.
  unfold resolve_project, fetch_and_validate_project, set_docker_env.
  rewrite bind_call_ext, Hfetch.
  destruct Hproject as [(Hp & -> & -> & ->)|(-> & a & -> & Hp & ->)],
    Hentity as [(He & -> & -> & ->)|(-> & a' & Ha & He & ->)];
    try apply is_None_false in Hp; try apply is_None_false in He;
    simplify_eq; try rewrite Hp; try rewrite He; cbn [is_None call_method];
    repeat first
      [ rewrite bind_ret
      | rewrite bind_call_ext, ?Hp, ?He, ?Hset1, ?Hset2; lazy beta iota ];
    reflexivity.
Qed.
End Injection.

(** X7: what [_run] stores in the project environment is, at
    "WANDB_PROJECT", the project name the caller gave or else the "project"
    setting, and at "WANDB_ENTITY" the entity name the caller gave or else
    the "entity" setting; by the time a backend is looked up both have been
    stored; and they are stored: when the resolver returns a project, the
    settings return the names the caller left out and the two assignments
    return, the trace of [_run] begins with the resolver, the settings
    asked for and the two assignments on that project, in this order, and
    whatever follows is the lookup of the backend and the dispatch. *)
Theorem run_injects_names (W : World)
    (uri experiment_name wandb_project wandb_entity docker_image entry_point
       version parameters docker_args : value) (runner_name : string)
    (runner_config storage_dir synchronous api : value) (h : heap)
    (x : ext W) :
  let o := _run uri experiment_name wandb_project wandb_entity docker_image
             entry_point version parameters docker_args runner_name
             runner_config storage_dir synchronous api h x in
  (forall p key v hs r,
     In (EvCall (CSetDockerEnv p key v) hs r) (out_events o) ->
     (key = "WANDB_PROJECT" /\
      injected api wandb_project "project" (out_events o) v) \/
     (key = "WANDB_ENTITY" /\
      injected api wandb_entity "entity" (out_events o) v)) /\
  (forall c hb r,
     In (EvCall c hb r) (out_events o) ->
     is_load_backend c = true ->
     exists p v v' r1 r2,
       In (EvCall (CSetDockerEnv p "WANDB_PROJECT" v) h (Ret r1))
          (out_events o) /\
       In (EvCall (CSetDockerEnv p "WANDB_ENTITY" v') h (Ret r2))
          (out_events o)) /\
  (forall p vp ve r1 r2 x1 x2 x3 x4 x5 evp eve,
     respond W (CFetchAndValidateProject uri experiment_name api runner_name
                  version entry_point parameters) h x
       = (Ret (VObj p), x1) ->
     defaulted W api wandb_project "project" h x1 vp x2 evp ->
     defaulted W api wandb_entity "entity" h x2 ve x3 eve ->
     respond W (CSetDockerEnv p "WANDB_PROJECT" vp) h x3 = (Ret r1, x4) ->
     respond W (CSetDockerEnv p "WANDB_ENTITY" ve) h x4 = (Ret r2, x5) ->
     exists evd : list event,
       out_events o =
         (EvCall (CFetchAndValidateProject uri experiment_name api
                    runner_name version entry_point parameters) h
            (Ret (VObj p))
          :: evp ++ eve ++
             [EvCall (CSetDockerEnv p "WANDB_PROJECT" vp) h (Ret r1);
              EvCall (CSetDockerEnv p "WANDB_ENTITY" ve) h (Ret r2)]
             ++ evd)%list /\
       forall c hb r,
         In (EvCall c hb r) evd ->
         is_load_backend c = true \/ is_backend_run c = true).
Proof.
  intros o.
  destruct (_run_trace uri experiment_name wandb_project wandb_entity
              docker_image entry_point version parameters docker_args
              runner_name runner_config storage_dir synchronous api h x)
    as (evd & Hevs & Hevd & _ & _ & _ & Hreached & _).
  destruct (resolve_project_trace uri experiment_name wandb_project
              wandb_entity entry_point version parameters runner_name api
              h x) as (_ & Henv & _ & Hboth).
  destruct (resolve_project_frame uri experiment_name wandb_project
              wandb_entity entry_point version parameters runner_name api
              h x) as [_ Hres].
  fold o in Hevs. cbv zeta in Henv, Hboth, Hres.
  pose proof (resolve_project_stores uri experiment_name wandb_project
                wandb_entity entry_point version parameters runner_name api
                h x) as Hstores.
  set (rp := resolve_project uri experiment_name wandb_project wandb_entity
               entry_point version parameters runner_name api h x) in *.
  assert (Hmono : forall given setting v,
            injected api given setting (out_events rp) v ->
            injected api given setting (out_events o) v).
  { intros given setting v [?|(? & a & hs & ? & Hin)]; [by left|].
    right. split; [done|]. exists a, hs. split; [done|].
    rewrite Hevs. apply in_or_app. by left. }
  split; [|split].
  - intros p key v hs r Hin. rewrite Hevs in Hin.
    apply in_app_or in Hin as [Hin|Hin].
    + destruct (Henv _ _ _ _ _ Hin) as [[? ?]|[? ?]]; auto.
    + by destruct (Hevd _ _ _ Hin).
  - intros c hb r Hin Hload. rewrite Hevs in Hin.
    apply in_app_or in Hin as [Hin|Hin].
    { destruct (resolution_no_dispatch _ _ _ _ _ Hres Hin) as [Hc _].
      by destruct c. }
    destruct Hreached as [project Hret]; [by destruct evd|].
    destruct (Hboth project Hret) as (p & v & v' & r1 & r2 & _ & H1 & H2).
    exists p, v, v', r1, r2. rewrite Hevs.
    split; apply in_or_app; by left.
  - intros p vp ve r1 r2 x1 x2 x3 x4 x5 evp eve Hfetch Hp He Hset1 Hset2.
    exists evd. split; [|done].
    rewrite Hevs,
      (Hstores p vp ve r1 r2 x1 x2 x3 x4 x5 evp eve Hfetch Hp He Hset1 Hset2).
    cbn [out_events]. by rewrite <- !app_comm_cons, <- !app_assoc.
Qed.

Lemma run_injects_names_witness :
  exists evd : list event,
    out_events (launch false "local") =
      ([EvCall
          (CFetchAndValidateProject (VStr "https://github.com/wandb/examples")
             VNone (VObj 9) "local" VNone VNone VNone)
          caller_heap (Ret (VObj 1));
        EvCall (CApiSettings 9 "project") caller_heap (Ret (VStr "project"));
        EvCall (CApiSettings 9 "entity") caller_heap (Ret (VStr "entity"));
        EvCall (CSetDockerEnv 1 "WANDB_PROJECT" (VStr "project")) caller_heap
          (Ret VNone);
        EvCall (CSetDockerEnv 1 "WANDB_ENTITY" (VStr "entity")) caller_heap
          (Ret VNone)] ++ evd)%list /\
    forall c hb r,
      In (EvCall c hb r) evd ->
      is_load_backend c = true \/ is_backend_run c = true.
Proof.
  apply (proj2 (proj2 (run_injects_names (launch_world false)
                         (VStr "https://github.com/wandb/examples") VNone
                         VNone VNone (VStr "python:3.8") VNone VNone VNone
                         (VDict 1) "local" (VDict 0) (VStr "/tmp/launch")
                         (VBool true) (VObj 9) caller_heap tt))
           1 (VStr "project") (VStr "entity") VNone VNone tt tt tt tt tt
           [EvCall (CApiSettings 9 "project") caller_heap
              (Ret (VStr "project"))]
           [EvCall (CApiSettings 9 "entity") caller_heap
              (Ret (VStr "entity"))]).
  - reflexivity.
  - right. split; [reflexivity|]. exists 9. repeat split; reflexivity.
  - right. split; [reflexivity|]. exists 9. repeat split; reflexivity.
  - reflexivity.
  - reflexivity.
Defined.

(** X8: [_run] catches nothing: when a call to a collaborator raises, that
    call is the last thing [_run] does and its exception is what [_run]
    raises. *)
Theorem run_propagates (W : World)
    (uri experiment_name wandb_project wandb_entity docker_image entry_point
       version parameters docker_args : value) (runner_name : string)
    (runner_config storage_dir synchronous api : value) (h : heap)
    (x : ext W) (c : call) (hb : heap) (e : exn) :
  let o := _run uri experiment_name wandb_project wandb_entity docker_image
             entry_point version parameters docker_args runner_name
             runner_config storage_dir synchronous api h x in
  In (EvCall c hb (Raise e)) (out_events o) ->
  out_result o = Raise e /\
  last (out_events o) = Some (EvCall c hb (Raise e)).
Proof.
  intros o Hin.
  destruct (_run_trace uri experiment_name wandb_project wandb_entity
              docker_image entry_point version parameters docker_args
              runner_name runner_config storage_dir synchronous api h x)
    as (evd & Hevs & _ & _ & _ & Hfailed & _ & Hraised).
  destruct (resolve_project_trace uri experiment_name wandb_project
              wandb_entity entry_point version parameters runner_name api
              h x) as (_ & _ & Hres & _).
  fold o in Hevs, Hfailed, Hraised. cbv zeta in Hres.
  rewrite Hevs in Hin |- *. apply in_app_or in Hin as [Hin|Hin].
  - destruct (Hres _ _ _ Hin) as [Hret Hlast].
    destruct (Hfailed e Hret) as [-> Ho].
    by rewrite app_nil_r.
  - destruct (Hraised _ _ _ Hin) as [Ho Hlast].
    split; [done|]. by rewrite last_app, Hlast.
Qed.

Lemma run_propagates_witness :
  out_result (dispatch_named failing_backend tt VNone)
    = Raise (OtherException "DispatchError" "no docker") /\
  last (out_events (dispatch_named failing_backend tt VNone))
    = Some (EvCall (CBackendRun 2 (VObj 1) (VDict 0))
              (out_heap (dispatch_named failing_backend tt VNone))
              (Raise (OtherException "DispatchError" "no docker"))).
Proof.
  apply (run_propagates failing_backend
           (VStr "https://github.com/wandb/examples") VNone (VStr "examples")
           (VStr "wandb") VNone VNone VNone VNone (VDict 1) "local" (VDict 0)
           VNone (VBool false) VNone caller_heap tt).
  vm_compute. do 4 right. left. reflexivity.
Defined.

(** X9: when no image is given ([docker_image] is [None] or empty), [_run]
    leaves the "DOCKER_IMAGE" entry of the configuration alone: the backend
    sees the entry the caller supplied, or none. *)
Theorem run_keeps_caller_image (W : World)
    (uri experiment_name wandb_project wandb_entity docker_image entry_point
       version parameters docker_args : value) (runner_name : string)
    (l : loc) (storage_dir synchronous api : value) (h : heap)
    (x : ext W) (b : obj) (project cfg : value) (hb : heap)
    (r : result value) :
  (forall h', truthy h' docker_image = false) ->
  "DOCKER_IMAGE" ∉ [PROJECT_SYNCHRONOUS W; PROJECT_DOCKER_ARGS W;
                    PROJECT_STORAGE_DIR W] ->
  In (EvCall (CBackendRun b project cfg) hb r)
     (out_events
        (_run uri experiment_name wandb_project wandb_entity docker_image
           entry_point version parameters docker_args runner_name (VDict l)
           storage_dir synchronous api h x)) ->
  (hb !!! l) !! "DOCKER_IMAGE" = (h !!! l) !! "DOCKER_IMAGE".
Proof.
  intros Hnone Hkeys Hin.
  apply _run_events in Hin as [[Hc _]|(l' & Hl & -> & _)]; [done|].
  simplify_eq. unfold configured. cbv zeta. rewrite Hnone.
  rewrite lookup_total_insert_eq.
  apply not_elem_of_cons in Hkeys as [? Hkeys].
  apply not_elem_of_cons in Hkeys as [? Hkeys].
  apply not_elem_of_cons in Hkeys as [? _].
  rewrite lookup_insert_ne by done. rewrite lookup_total_insert_eq.
  rewrite lookup_insert_ne by done. rewrite lookup_total_insert_eq.
  by rewrite lookup_insert_ne.
Qed.

Lemma run_keeps_caller_image_witness :
  (out_heap
     (@_run (launch_world false) (VStr "https://github.com/wandb/examples")
        VNone (VStr "examples") (VStr "wandb") VNone VNone VNone VNone
        (VDict 1) "local" (VDict 0) VNone (VBool false) VNone imaged_heap tt)
     !!! 0) !! "DOCKER_IMAGE"
  = (imaged_heap !!! 0) !! "DOCKER_IMAGE".
Proof.
  apply (run_keeps_caller_image (launch_world false)
           (VStr "https://github.com/wandb/examples") VNone (VStr "examples")
           (VStr "wandb") VNone VNone VNone VNone (VDict 1) "local" 0 VNone
           (VBool false) VNone imaged_heap tt 2 (VObj 1) (VDict 0) _
           (Ret (VObj 3))).
  - reflexivity.
  - apply (bool_decide_unpack _). vm_compute. exact I.
  - vm_compute. do 4 right. left. reflexivity.
Defined.

(** X10: [_run] looks the backend up at most once and dispatches at most
    once, and it never waits on the run nor cancels it: nothing is retried,
    and blocking is left to [run]. *)
Theorem run_dispatches_once (W : World)
    (uri experiment_name wandb_project wandb_entity docker_image entry_point
       version parameters docker_args : value) (runner_name : string)
    (runner_config storage_dir synchronous api : value) (h : heap)
    (x : ext W) :
  let o := _run uri experiment_name wandb_project wandb_entity docker_image
             entry_point version parameters docker_args runner_name
             runner_config storage_dir synchronous api h x in
  count_calls is_load_backend (out_events o) <= 1 /\
  count_calls is_backend_run (out_events o) <= 1 /\
  count_calls is_wait_or_cancel (out_events o) = 0.
Proof.
  intros o.
  destruct (_run_trace uri experiment_name wandb_project wandb_entity
              docker_image entry_point version parameters docker_args
              runner_name runner_config storage_dir synchronous api h x)
    as (evd & Hevs & Hevd & Hload & Hrun & _).
  destruct (resolve_project_frame uri experiment_name wandb_project
              wandb_entity entry_point version parameters runner_name api
              h x) as [_ Hres].
  fold o in Hevs. cbv zeta in Hres. rewrite Hevs, !count_calls_app.
  assert (Hnone : forall p,
            (forall c, is_resolution_call c = true -> p c = false) ->
            count_calls p
              (out_events
                 (resolve_project uri experiment_name wandb_project
                    wandb_entity entry_point version parameters runner_name
                    api h x)) = 0).
  { intros p Hp. apply count_calls_none. intros c hb r Hin.
    apply Hp. by destruct (resolution_no_dispatch _ _ _ _ _ Hres Hin). }
  rewrite !Hnone by (by intros []).
  repeat split; try done.
  rewrite count_calls_none; [done|].
  intros c hb r Hin. by destruct (Hevd _ _ _ Hin), c.
Qed.

(** ** [run] *)

(** X11: with [synchronous] false, [run] never calls [wait()] nor
    [cancel()]: it does not block on the run it has dispatched. *)
Theorem run_asynchronous_does_not_wait (W : World)
    (uri entry_point version parameters docker_args experiment_name : value)
    (resource : string)
    (wandb_project wandb_entity docker_image config storage_dir synchronous
       api : value) (h : heap) (x : ext W) :
  (forall h', truthy h' synchronous = false) ->
  count_calls is_wait_or_cancel
    (out_events
       (run uri entry_point version parameters docker_args experiment_name
          resource wandb_project wandb_entity docker_image config
          storage_dir synchronous api h x)) = 0.
Proof.
  intros Hasync.
  destruct (run_phases uri entry_point version parameters docker_args
              experiment_name resource wandb_project wandb_entity
              docker_image config storage_dir synchronous api h x)
    as (ev01 & Hquiet & [(e & _ & -> & _)|(v1 & h1 & x1 & _ & ->)]).
  - by apply count_calls_none.
  - rewrite wait_if_cases, Hasync. simpl. rewrite app_nil_r.
    by apply count_calls_none.
Qed.

Lemma run_asynchronous_does_not_wait_witness :
  count_calls is_wait_or_cancel
    (out_events (launch_run false (VBool false))) = 0.
Proof.
  apply (run_asynchronous_does_not_wait (launch_world false)
           (VStr "https://github.com/wandb/examples") VNone VNone VNone
           (VDict 1) VNone "local" VNone VNone (VStr "python:3.8") (VDict 0)
           (VStr "/tmp/launch") (VBool false) (VObj 9) caller_heap tt).
  reflexivity.
Defined.

(** X12: when the wait of a synchronous [run] returns a false value, [run]
    raises the [ExecutionException] "Submitted run failed" instead of
    returning the submitted run, and it does not cancel the run. *)
Theorem run_synchronous_failure (W : World)
    (uri entry_point version parameters docker_args experiment_name : value)
    (resource : string)
    (wandb_project wandb_entity docker_image config storage_dir synchronous
       api : value) (h : heap) (x : ext W) (s : obj) (hw : heap)
    (finished : value) :
  let o := run uri entry_point version parameters docker_args
             experiment_name resource wandb_project wandb_entity
             docker_image config storage_dir synchronous api h x in
  In (EvCall (CWait s) hw (Ret finished)) (out_events o) ->
  truthy hw finished = false ->
  out_result o = Raise (ExecutionException "Submitted run failed") /\
  count_calls is_cancel (out_events o) = 0.
Proof.
  intros o Hin Hfailed.
  destruct (run_waited uri entry_point version parameters docker_args
              experiment_name resource wandb_project wandb_entity
              docker_image config storage_dir synchronous api h x
              s hw (Ret finished) Hin)
    as (ev01 & x1 & x2 & Hquiet & Hresp & Ho).
  fold o in Ho. rewrite Ho, wait_for_cases, Hresp, Hfailed. simpl.
  split; [done|]. rewrite count_calls_app. simpl.
  rewrite count_calls_none; [done|].
  intros c hb r Hc. apply Hquiet in Hc. by destruct c.
Qed.

Lemma run_synchronous_failure_witness :
  out_result
    (launch_named (launch_world_with (VObj 3) (Ret (VBool false))) tt
       (VDict 1) (VBool true))
    = Raise (ExecutionException "Submitted run failed") /\
  count_calls is_cancel
    (out_events
       (launch_named (launch_world_with (VObj 3) (Ret (VBool false))) tt
          (VDict 1) (VBool true))) = 0.
Proof.
  apply (run_synchronous_failure
           (launch_world_with (VObj 3) (Ret (VBool false)))
           (VStr "https://github.com/wandb/examples") VNone VNone VNone
           (VDict 1) VNone "local" (VStr "examples") (VStr "wandb") VNone
           (VDict 0) VNone (VBool true) VNone caller_heap tt 3
           (out_heap
              (launch_named (launch_world_with (VObj 3) (Ret (VBool false)))
                 tt (VDict 1) (VBool true)))
           (VBool false)).
  - vm_compute. do 6 right. left. reflexivity.
  - reflexivity.
Defined.

(** X13: when the wait of a synchronous [run] is interrupted by a
    [KeyboardInterrupt], the last thing [run] does is one [cancel()] on the
    submitted run the dispatch returned; [run] then raises that interrupt,
    or the exception of [cancel()] if it raised. *)
Theorem run_synchronous_interrupt (W : World)
    (uri entry_point version parameters docker_args experiment_name : value)
    (resource : string)
    (wandb_project wandb_entity docker_image config storage_dir synchronous
       api : value) (h : heap) (x : ext W) (s : obj) (hw : heap)
    (args : string) :
  let o := run uri entry_point version parameters docker_args
             experiment_name resource wandb_project wandb_entity
             docker_image config storage_dir synchronous api h x in
  In (EvCall (CWait s) hw (Raise (KeyboardInterrupt args))) (out_events o) ->
  exists rc,
    last (out_events o) = Some (EvCall (CCancel s) hw rc) /\
    count_calls is_cancel (out_events o) = 1 /\
    out_result o =
      match rc with
      | Ret _ => Raise (KeyboardInterrupt args)
      | Raise e => Raise e
      end.
Proof.
  intros o Hin.
  destruct (run_waited uri entry_point version parameters docker_args
              experiment_name resource wandb_project wandb_entity
              docker_image config storage_dir synchronous api h x
              s hw (Raise (KeyboardInterrupt args)) Hin)
    as (ev01 & x1 & x2 & Hquiet & Hresp & Ho).
  fold o in Ho. rewrite Ho, wait_for_cases, Hresp.
  cbn [is_KeyboardInterrupt].
  destruct (respond W (CCancel s) hw x2) as [[vc|ec] x3];
    [exists (Ret vc)|exists (Raise ec)];
    (simpl; split; [by rewrite last_app|]; split; [|done];
     rewrite count_calls_app; simpl;
     rewrite count_calls_none; [done|];
     intros c hb r Hc; apply Hquiet in Hc; by destruct c).
Qed.

Lemma run_synchronous_interrupt_witness :
  exists rc,
    last (out_events
            (launch_named
               (launch_world_with (VObj 3) (Raise (KeyboardInterrupt "")))
               tt (VDict 1) (VBool true)))
      = Some (EvCall (CCancel 3)
                (out_heap
                   (launch_named
                      (launch_world_with (VObj 3)
                         (Raise (KeyboardInterrupt "")))
                      tt (VDict 1) (VBool true))) rc) /\
    count_calls is_cancel
      (out_events
         (launch_named
            (launch_world_with (VObj 3) (Raise (KeyboardInterrupt "")))
            tt (VDict 1) (VBool true))) = 1 /\
    out_result
      (launch_named
         (launch_world_with (VObj 3) (Raise (KeyboardInterrupt "")))
         tt (VDict 1) (VBool true)) =
      match rc with
      | Ret _ => Raise (KeyboardInterrupt "")
      | Raise e => Raise e
      end.
Proof.
  apply (run_synchronous_interrupt
           (launch_world_with (VObj 3) (Raise (KeyboardInterrupt "")))
           (VStr "https://github.com/wandb/examples") VNone VNone VNone
           (VDict 1) VNone "local" (VStr "examples") (VStr "wandb") VNone
           (VDict 0) VNone (VBool true) VNone caller_heap tt 3 _ "").
  vm_compute. do 6 right. left. reflexivity.
Defined.

(** X14: when the backend returns something that is no object, [None] for
    one, a synchronous [run] fails on the call of [wait()] with an
    [AttributeError], after the dispatch has taken place; nothing is waited
    on and nothing is cancelled. *)
Theorem run_synchronous_needs_handle (W : World)
    (uri entry_point version parameters docker_args experiment_name : value)
    (resource : string)
    (wandb_project wandb_entity docker_image config storage_dir synchronous
       api : value) (h : heap) (x : ext W) (b : obj) (project cfg : value)
    (hb : heap) (v : value) :
  let o := run uri entry_point version parameters docker_args
             experiment_name resource wandb_project wandb_entity
             docker_image config storage_dir synchronous api h x in
  In (EvCall (CBackendRun b project cfg) hb (Ret v)) (out_events o) ->
  (forall s, v <> VObj s) ->
  truthy hb synchronous = true ->
  out_result o = Raise (AttributeError (no_attribute v "wait")) /\
  count_calls is_wait_or_cancel (out_events o) = 0.
Proof.
  intros o Hin Hhandle Hsync.
  destruct (run_phases uri entry_point version parameters docker_args
              experiment_name resource wandb_project wandb_entity
              docker_image config storage_dir synchronous api h x)
    as (ev01 & Hquiet & [(e & _ & Hevs & Hnone)|(v1 & h1 & x1 & Hone & Ho)]);
    fold o in Hevs || fold o in Ho.
  - rewrite Hevs in Hin. by apply Hnone in Hin.
  - assert (Hwf : _wait_for v h1 x1 =
                  Outcome (Raise (AttributeError (no_attribute v "wait")))
                    h1 x1 []).
    { rewrite wait_for_cases. destruct v; try done. by destruct (Hhandle o0). }
    assert (Hin01 : In (EvCall (CBackendRun b project cfg) hb (Ret v)) ev01).
    { rewrite Ho in Hin.
      pose proof (fun ev => wait_if_events synchronous v1 h1 x1 ev) as Hevw.
      pose proof (wait_for_frame v1 h1 x1) as (_ & Hcw & _ & _).
      destruct (wait_if synchronous v1 h1 x1) as [rw hw xw evw].
      simpl in Hin. apply in_app_or in Hin as [Hin|Hin]; [done|].
      destruct (Hevw _ Hin) as [_ Hin'].
      by destruct (Hcw _ _ _ Hin') as [? _]. }
    destruct (Hone _ _ _ _ _ Hin01) as [-> ->].
    rewrite Ho, wait_if_cases, Hsync, Hwf. simpl. rewrite app_nil_r.
    split; [done|]. by apply count_calls_none.
Qed.

Lemma run_synchronous_needs_handle_witness :
  out_result
    (launch_named (launch_world_with VNone (Ret (VBool true))) tt (VDict 1)
       (VBool true))
    = Raise (AttributeError "'NoneType' object has no attribute 'wait'") /\
  count_calls is_wait_or_cancel
    (out_events
       (launch_named (launch_world_with VNone (Ret (VBool true))) tt
          (VDict 1) (VBool true))) = 0.
Proof.
  apply (run_synchronous_needs_handle
           (launch_world_with VNone (Ret (VBool true)))
           (VStr "https://github.com/wandb/examples") VNone VNone VNone
           (VDict 1) VNone "local" (VStr "examples") (VStr "wandb") VNone
           (VDict 0) VNone (VBool true) VNone caller_heap tt 2 (VObj 1)
           (VDict 0)
           (out_heap
              (launch_named (launch_world_with VNone (Ret (VBool true))) tt
                 (VDict 1) (VBool true)))
           VNone).
  - vm_compute. do 5 right. left. reflexivity.
  - intros s. discriminate.
  - reflexivity.
Defined.

(** X15: for a project source recognised as local and docker arguments
    that are a builtin value other than a mapping ([None], which is the
    default, a boolean, an integer or a string), [run] fails on the network
    override with the [TypeError] Python raises for an item assignment into
    such a value, before the project is resolved and with nothing else
    called. *)
Theorem run_local_needs_docker_args (W : World)
    (uri entry_point version parameters docker_args experiment_name : value)
    (resource : string)
    (wandb_project wandb_entity docker_image config storage_dir synchronous
       api : value) (h : heap) (x x0 : ext W) (is_local : value) :
  respond W (CIsWandbLocalUri uri) h x = (Ret is_local, x0) ->
  truthy h is_local = true ->
  (forall l, docker_args <> VDict l) ->
  (forall o, docker_args <> VObj o) ->
  run uri entry_point version parameters docker_args experiment_name
    resource wandb_project wandb_entity docker_image config storage_dir
    synchronous api h x =
    Outcome (Raise (TypeError (no_item_assignment docker_args))) h x0
      [EvCall (CIsWandbLocalUri uri) h (Ret is_local)].
Proof.
  intros Hlocal Htrue Hmapping _.
  rewrite run_cases, network_override_cases, Hlocal, Htrue.
  destruct docker_args; try done. by destruct (Hmapping l).
Qed.

Lemma run_local_needs_docker_args_witness :
  @run_defaults (launch_world true) (VStr "./project") ∅ tt =
    Outcome
      (Raise (TypeError "'NoneType' object does not support item assignment"))
      ∅ tt
      [EvCall (CIsWandbLocalUri (VStr "./project")) ∅ (Ret (VBool true))].
Proof.
  apply (run_local_needs_docker_args (launch_world true) (VStr "./project")
           VNone VNone VNone VNone VNone "local" VNone VNone VNone VNone
           VNone (VBool true) VNone ∅ tt tt (VBool true)).
  - reflexivity.
  - reflexivity.
  - intros l. discriminate.
  - intros o. discriminate.
Defined.

Section RunHeap.
Context {W : World}.

(** The heap [run] leaves: the heap it was entered with, changed by the
    network override for a local source and by the reserved keys of the
    configuration, and by nothing else. *)
Lemma run_heap
    uri entry_point version parameters docker_args experiment_name resource
    wandb_project wandb_entity docker_image config storage_dir synchronous
    api h (x : ext W) :
  let o := run uri entry_point version parameters docker_args
             experiment_name resource wandb_project wandb_entity
             docker_image config storage_dir synchronous api h x in
  exists h0,
    (h0 = h \/
     exists l is_local x0,
       docker_args = VDict l /\
       respond W (CIsWandbLocalUri uri) h x = (Ret is_local, x0) /\
       truthy h is_local = true /\ h0 = host_network l h) /\
    (out_heap o = h0 \/
     exists lc,
       config = VDict lc /\
       out_heap o =
         configured W lc synchronous docker_args storage_dir docker_image
           h0).
Proof.
  intros o. subst o. rewrite run_cases. cbv zeta.
  assert (Hh0 :
    out_heap (network_override uri docker_args h x) = h \/
    exists l is_local x0,
      docker_args = VDict l /\
      respond W (CIsWandbLocalUri uri) h x = (Ret is_local, x0) /\
      truthy h is_local = true /\
      out_heap (network_override uri docker_args h x) = host_network l h).
  { rewrite network_override_cases.
    destruct (respond W (CIsWandbLocalUri uri) h x)
      as [[is_local|e] x0]; [|by left].
    destruct (truthy h is_local) eqn:Hlocal; [|by left].
    destruct docker_args; try by left.
    right. by exists l, is_local, x0. }
  destruct (network_override uri docker_args h x)
    as [[[]|e0] h0 x0 ev0]; outcome_simpl.
  2:{ exists h0. split; [|by left].
      destruct Hh0 as [->|(l & il & x1 & ? & ? & ? & ->)]; [by left|].
      right. by exists l, il, x1. }
  exists h0. split.
  { destruct Hh0 as [->|(l & il & x1 & ? & ? & ? & ->)]; [by left|].
    right. by exists l, il, x1. }
  pose proof (_run_heap uri experiment_name wandb_project wandb_entity
                docker_image entry_point version parameters docker_args
                resource config storage_dir synchronous api h0 x0)
    as Hheap1.
  cbv zeta in Hheap1.
  destruct (_run uri experiment_name wandb_project wandb_entity docker_image
              entry_point version parameters docker_args resource config
              storage_dir synchronous api h0 x0)
    as [[v1|e1] h1 x1 ev1]; outcome_simpl; [|done].
  pose proof (wait_if_cases synchronous v1 h1 x1) as Hwi.
  pose proof (wait_for_frame v1 h1 x1) as (Hhw & _).
  destruct (wait_if synchronous v1 h1 x1) as [rw hw xw evw]; outcome_simpl.
  assert (hw = h1) as ->; [|done].
  destruct (truthy h1 synchronous); [|by simplify_eq].
  cbv zeta in Hwi.
  destruct (_wait_for v1 h1 x1) as [[?|?] ? ? ?]; simpl in *; by simplify_eq.
Qed.
End RunHeap.

Section RunWrites.
Context {W : World}.

(** An assignment into the environment of a project, in the trace of the
    lines 59-69, is one of the two of lines 68-69, on the project the
    resolver returned. *)
Lemma resolve_project_target
    uri experiment_name wandb_project wandb_entity entry_point version
    parameters runner_name api h (x : ext W) p key v hs r :
  In (EvCall (CSetDockerEnv p key v) hs r)
     (out_events
        (resolve_project uri experiment_name wandb_project wandb_entity
           entry_point version parameters runner_name api h x)) ->
  (key = "WANDB_PROJECT" \/ key = "WANDB_ENTITY") /\
  In (EvCall (CFetchAndValidateProject uri experiment_name api runner_name
                version entry_point parameters) h (Ret (VObj p)))
     (out_events
        (resolve_project uri experiment_name wandb_project wandb_entity
           entry_point version parameters runner_name api h x)).
Proof.
  unfold resolve_project, fetch_and_validate_project, set_docker_env.
  destruct (is_None wandb_project), (is_None wandb_entity);
    repeat exec; simpl; intros Hin;
    repeat match goal with
           | H : _ \/ _ |- _ => destruct H
           | H : False |- _ => destruct H
           end;
    simplify_eq; (split; [by auto|by left]).
Qed.

(** The trace of [_wait_for] holds no call but [wait()] and [cancel()]. *)
Lemma wait_for_events submitted_run_obj h (x : ext W) c hb r :
  In (EvCall c hb r) (out_events (_wait_for submitted_run_obj h x)) ->
  is_wait_or_cancel c = true.
Proof.
  rewrite wait_for_cases.
  destruct submitted_run_obj as [| | | | |s]; try done.
  destruct (respond W (CWait s) h x) as [[finished|e] x1];
    [destruct (truthy h finished)
    |destruct (is_KeyboardInterrupt e);
       [destruct (respond W (CCancel s) h x1) as [rc x2]|]];
    simpl; intros Hin;
    repeat match goal with
           | H : _ \/ _ |- _ => destruct H
           | H : False |- _ => destruct H
           end;
    by simplify_eq.
Qed.

(** The assignments into the environment of a project in the trace of
    [run] are those of lines 68-69. *)
Lemma run_docker_env_writes
    uri entry_point version parameters docker_args experiment_name resource
    wandb_project wandb_entity docker_image config storage_dir synchronous
    api h (x : ext W) p key v hs r :
  let o := run uri entry_point version parameters docker_args
             experiment_name resource wandb_project wandb_entity
             docker_image config storage_dir synchronous api h x in
  In (EvCall (CSetDockerEnv p key v) hs r) (out_events o) ->
  (key = "WANDB_PROJECT" \/ key = "WANDB_ENTITY") /\
  exists hf,
    In (EvCall (CFetchAndValidateProject uri experiment_name api resource
                  version entry_point parameters) hf (Ret (VObj p)))
       (out_events o).
Proof.
  intros o. subst o. rewrite run_cases. cbv zeta.
  pose proof (network_override_events uri docker_args h x) as Hev0.
  destruct (network_override uri docker_args h x)
    as [[[]|e0] h0 x0 ev0]; outcome_simpl.
  2:{ intros Hin. by destruct (Hev0 _ _ _ Hin). }
  destruct (_run_trace uri experiment_name wandb_project wandb_entity
              docker_image entry_point version parameters docker_args
              resource config storage_dir synchronous api h0 x0)
    as (evd & Hevs & Hevd & _).
  pose proof (resolve_project_target uri experiment_name wandb_project
                wandb_entity entry_point version parameters resource api
                h0 x0 p key v hs r) as Htarget.
  assert (Hin1 :
    In (EvCall (CSetDockerEnv p key v) hs r)
       (out_events
          (_run uri experiment_name wandb_project wandb_entity docker_image
             entry_point version parameters docker_args resource config
             storage_dir synchronous api h0 x0)) ->
    (key = "WANDB_PROJECT" \/ key = "WANDB_ENTITY") /\
    In (EvCall (CFetchAndValidateProject uri experiment_name api resource
                  version entry_point parameters) h0 (Ret (VObj p)))
       (out_events
          (_run uri experiment_name wandb_project wandb_entity docker_image
             entry_point version parameters docker_args resource config
             storage_dir synchronous api h0 x0))).
  { rewrite Hevs. intros Hin. apply in_app_or in Hin as [Hin|Hin].
    - destruct (Htarget Hin) as [Hkey Hfetch]. split; [done|].
      apply in_or_app. by left.
    - by destruct (Hevd _ _ _ Hin). }
  clear Hevs Hevd Htarget.
  destruct (_run uri experiment_name wandb_project wandb_entity docker_image
              entry_point version parameters docker_args resource config
              storage_dir synchronous api h0 x0)
    as [[v1|e1] h1 x1 ev1]; outcome_simpl.
  - pose proof (fun ev => wait_if_events synchronous v1 h1 x1 ev) as Hevw.
    destruct (wait_if synchronous v1 h1 x1) as [rw hw xw evw];
      outcome_simpl.
    intros Hin. apply in_app_or in Hin as [Hin|Hin];
      [by destruct (Hev0 _ _ _ Hin)|].
    apply in_app_or in Hin as [Hin|Hin].
    + destruct (Hin1 Hin) as [Hkey Hfetch]. split; [done|]. exists h0.
      apply in_or_app. right. apply in_or_app. by left.
    + destruct (Hevw _ Hin) as [_ Hin'].
      by apply wait_for_events in Hin'.
  - intros Hin. apply in_app_or in Hin as [Hin|Hin];
      [by destruct (Hev0 _ _ _ Hin)|].
    destruct (Hin1 Hin) as [Hkey Hfetch]. split; [done|]. exists h0.
    apply in_or_app. by right.
Qed.
End RunWrites.

(** X16: the mappings [run] assigns into are the run configuration, the
    docker arguments and the environment of the project, [project.docker_env].
    Of the dictionaries of the heap, it changes none but the run
    configuration and the docker arguments: every other one is, after the
    call, what it was before.  The environment of the project, which the
    project holds and which is none of these, is assigned to at
    "WANDB_PROJECT" and "WANDB_ENTITY" and at no other key, on the project
    the resolver returned and on no other. *)
Theorem run_frame (W : World)
    (uri entry_point version parameters docker_args experiment_name : value)
    (resource : string)
    (wandb_project wandb_entity docker_image config storage_dir synchronous
       api : value) (h : heap) (x : ext W) :
  let o := run uri entry_point version parameters docker_args
             experiment_name resource wandb_project wandb_entity
             docker_image config storage_dir synchronous api h x in
  (forall l' : loc,
     config <> VDict l' ->
     docker_args <> VDict l' ->
     out_heap o !!! l' = h !!! l') /\
  (forall p key v hs r,
     In (EvCall (CSetDockerEnv p key v) hs r) (out_events o) ->
     (key = "WANDB_PROJECT" \/ key = "WANDB_ENTITY") /\
     exists hf,
       In (EvCall (CFetchAndValidateProject uri experiment_name api resource
                     version entry_point parameters) hf (Ret (VObj p)))
          (out_events o)).
Proof.
  intros o. split; [|apply run_docker_env_writes].
  intros l' Hconfig Hargs.
  destruct (run_heap uri entry_point version parameters docker_args
              experiment_name resource wandb_project wandb_entity
              docker_image config storage_dir synchronous api h x)
    as (h0 & Hh0 & Hh1).
  fold o in Hh1.
  assert (Hl0 : h0 !!! l' = h !!! l').
  { destruct Hh0 as [->|(l & il & x0 & -> & _ & _ & ->)]; [done|].
    unfold host_network. rewrite lookup_total_insert_ne; [done|].
    by intros ->. }
  destruct Hh1 as [->|(lc & -> & ->)]; [done|].
  rewrite configured_other; [done|]. by intros ->.
Qed.

Lemma run_frame_witness :
  out_heap
    (@run (launch_world true) (VStr "https://github.com/wandb/examples")
       VNone VNone VNone (VDict 1) VNone "local" VNone VNone
       (VStr "python:3.8") (VDict 0) (VStr "/tmp/launch") (VBool true)
       (VObj 9) (<[2 := {[ "alpha" := VInt 5 ]}]> caller_heap) tt) !!! 2
  = (<[2 := {[ "alpha" := VInt 5 ]}]> caller_heap) !!! 2.
Proof.
  apply (proj1 (run_frame (launch_world true)
                  (VStr "https://github.com/wandb/examples") VNone VNone
                  VNone (VDict 1) VNone "local" VNone VNone
                  (VStr "python:3.8") (VDict 0) (VStr "/tmp/launch")
                  (VBool true) (VObj 9)
                  (<[2 := {[ "alpha" := VInt 5 ]}]> caller_heap) tt) 2);
    discriminate.
Defined.

(** X17: for a project source that is not recognised as local, [run]
    leaves the docker arguments mapping as the caller passed it, as long as
    it is not the run configuration as well: no "network" entry is added. *)
Theorem run_remote_keeps_docker_args (W : World)
    (uri entry_point version parameters : value) (l : loc)
    (experiment_name : value) (resource : string)
    (wandb_project wandb_entity docker_image config storage_dir synchronous
       api : value) (h : heap) (x x0 : ext W) (is_local : value) :
  respond W (CIsWandbLocalUri uri) h x = (Ret is_local, x0) ->
  truthy h is_local = false ->
  config <> VDict l ->
  out_heap
    (run uri entry_point version parameters (VDict l) experiment_name
       resource wandb_project wandb_entity docker_image config storage_dir
       synchronous api h x) !!! l = h !!! l.
Proof.
  intros Hremote Hfalse Hconfig.
  destruct (run_heap uri entry_point version parameters (VDict l)
              experiment_name resource wandb_project wandb_entity
              docker_image config storage_dir synchronous api h x)
    as (h0 & Hh0 & Hh1).
  assert (h0 = h) as ->.
  { destruct Hh0 as [->|(l1 & il & x1 & _ & Hresp & Htrue & _)]; [done|].
    rewrite Hremote in Hresp. simplify_eq. congruence. }
  destruct Hh1 as [->|(lc & -> & ->)]; [done|].
  rewrite configured_other; [done|]. by intros ->.
Qed.

Lemma run_remote_keeps_docker_args_witness :
  out_heap (launch_run false (VBool true)) !!! 1 = caller_heap !!! 1.
Proof.
  apply (run_remote_keeps_docker_args (launch_world false)
           (VStr "https://github.com/wandb/examples") VNone VNone VNone 1
           VNone "local" VNone VNone (VStr "python:3.8") (VDict 0)
           (VStr "/tmp/launch") (VBool true) (VObj 9) caller_heap tt tt
           (VBool false)).
  - reflexivity.
  - reflexivity.
  - discriminate.
Defined.
